(** * Fair-Hire resume pipeline: a shallow embedding of [model2.py] and
      [Model/backend/app.py], with the properties of the redaction and
      summarisation pipeline proved against it.

    Python [str] values are modelled as [string]; a character is a code
    point below 256 (ASCII and Latin-1), so the word-character and
    lower-casing tables below are those of Python for that range.  The
    machine-learning models, the DOCX parser and the base64 decoder are
    external to the repository and appear as [Section] variables. *)

From Stdlib Require Import Bool Arith Lia List Ascii String.
From stdpp Require Import gmap strings.
Import ListNotations.
Open Scope string_scope.

(** ** Python string primitives *)
Module Py.

Definition code (c : ascii) : nat := nat_of_ascii c.

Definition in_range (lo hi : nat) (c : ascii) : bool :=
  (lo <=? code c)%nat && (code c <=? hi)%nat.

(** Upper-case letters of the range: [A-Z], and the Latin-1 capitals
    U+00C0..U+00DE without the multiplication sign U+00D7. *)
Definition is_upper (c : ascii) : bool :=
  in_range 65 90 c || in_range 192 214 c || in_range 216 222 c.

(** [str.lower] on one character. *)
Definition lower (c : ascii) : ascii :=
  if is_upper c then ascii_of_nat (code c + 32) else c.

(** [\w] of the [re] module on [str] patterns: alphanumeric or
    underscore. *)
Definition is_word (c : ascii) : bool :=
  in_range 48 57 c || in_range 65 90 c || (code c =? 95)%nat || in_range 97 122 c
  || (code c =? 170)%nat || in_range 178 179 c || (code c =? 181)%nat
  || in_range 185 186 c || in_range 188 190 c
  || in_range 192 214 c || in_range 216 246 c || in_range 248 255 c.

(** [str.isspace] on one character. *)
Definition is_space (c : ascii) : bool :=
  in_range 9 13 c || in_range 28 32 c || (code c =? 133)%nat || (code c =? 160)%nat.

Definition hd (s : string) : option ascii :=
  match s with
  | EmptyString => None
  | String c _ => Some c
  end.

Fixpoint drop (n : nat) (s : string) : string :=
  match n, s with
  | S n', String _ s' => drop n' s'
  | _, _ => s
  end.

(** The character that precedes position [n] of [s], [prev] being the
    one that precedes [s] itself. *)
Fixpoint before (prev : option ascii) (n : nat) (s : string) : option ascii :=
  match n, s with
  | S n', String c s' => before (Some c) n' s'
  | _, _ => prev
  end.

(** [s.startswith(p)]. *)
Fixpoint startswith (p s : string) : bool :=
  match p, s with
  | EmptyString, _ => true
  | String a p', String b s' => Ascii.eqb a b && startswith p' s'
  | String _ _, EmptyString => false
  end.

(** [s.endswith(p)]. *)
Definition endswith (p s : string) : bool :=
  (String.length p <=? String.length s)%nat
  && String.eqb (drop (String.length s - String.length p) s) p.

(** [p in s]. *)
Fixpoint contains (p s : string) : bool :=
  startswith p s
  || match s with
     | EmptyString => false
     | String _ s' => contains p s'
     end.

(** [s.lower()]. *)
Fixpoint str_lower (s : string) : string :=
  match s with
  | EmptyString => EmptyString
  | String c s' => String (lower c) (str_lower s')
  end.

(** [sep.join(l)]. *)
Fixpoint join (sep : string) (l : list string) : string :=
  match l with
  | [] => ""
  | [x] => x
  | x :: l' => x ++ sep ++ join sep l'
  end.

(** [s.replace(old, new)] for a non-empty [old]: occurrences are
    replaced from the left and do not overlap.  [skip] counts the
    characters of the current occurrence still to be passed over. *)
Fixpoint replace_go (old new : string) (skip : nat) (s : string) : string :=
  match s with
  | EmptyString => EmptyString
  | String c s' =>
      match skip with
      | S k => replace_go old new k s'
      | O =>
          if startswith old s
          then new ++ replace_go old new (String.length old - 1) s'
          else String c (replace_go old new 0 s')
      end
  end.

(** With an empty [old] Python puts [new] before every character and at
    the end. *)
Fixpoint intersperse (new s : string) : string :=
  match s with
  | EmptyString => new
  | String c s' => new ++ String c (intersperse new s')
  end.

Definition replace (old new s : string) : string :=
  match old with
  | EmptyString => intersperse new s
  | String _ _ => replace_go old new 0 s
  end.

(** [s.lstrip()], [s.rstrip()] and [s.strip()]. *)
Fixpoint lstrip (s : string) : string :=
  match s with
  | EmptyString => EmptyString
  | String c s' => if is_space c then lstrip s' else s
  end.

Fixpoint rstrip (s : string) : string :=
  match s with
  | EmptyString => EmptyString
  | String c s' =>
      match rstrip s' with
      | EmptyString => if is_space c then EmptyString else String c EmptyString
      | r => String c r
      end
  end.

Definition strip (s : string) : string := rstrip (lstrip s).

(** [s.split(sep)] for a one-character separator. *)
Fixpoint split (sep : ascii) (s : string) : list string :=
  match s with
  | EmptyString => [EmptyString]
  | String c s' =>
      if Ascii.eqb c sep then EmptyString :: split sep s'
      else match split sep s' with
           | [] => [String c EmptyString]
           | x :: l => String c x :: l
           end
  end.

Definition nl : string := String (ascii_of_nat 10) EmptyString.
Definition dq : string := String (ascii_of_nat 34) EmptyString.

End Py.

(** ** The fragment of [re] that the filter uses

    Every pattern of the filter has the shape [\b(k1|k2|...|kn)\b] and is
    used with [re.IGNORECASE]; a pattern is modelled by the list of its
    alternatives. *)
Module Re.
Import Py.

Definition pattern : Type := list string.

Definition word_opt (o : option ascii) : bool :=
  match o with
  | Some c => is_word c
  | None => false
  end.

(** [\b] between the character [prev] and the character [next]; the
    ends of the text count as non-word characters. *)
Definition bdry (prev next : option ascii) : bool :=
  xorb (word_opt prev) (word_opt next).

(** A literal character [x] of the pattern against the character [c] of
    the text under [re.IGNORECASE]. *)
Definition ci_eqb (x c : ascii) : bool := Ascii.eqb (lower x) (lower c).

(** The literal [k] at the head of [s]: the last character consumed and
    the rest of the text. *)
Fixpoint lit_ci (k : string) (prev : option ascii) (s : string)
  : option (option ascii * string) :=
  match k with
  | EmptyString => Some (prev, s)
  | String x k' =>
      match s with
      | String c s' => if ci_eqb x c then lit_ci k' (Some c) s' else None
      | EmptyString => None
      end
  end.

(** [\b k \b] at the head of [s]: the length of the match. *)
Definition alt_match (k : string) (prev : option ascii) (s : string) : option nat :=
  if bdry prev (hd s) then
    match lit_ci k prev s with
    | Some (p, r) => if bdry p (hd r) then Some (String.length k) else None
    | None => None
    end
  else None.

(** The alternatives are tried from left to right. *)
Fixpoint first_match (alts : pattern) (prev : option ascii) (s : string) : option nat :=
  match alts with
  | [] => None
  | k :: alts' =>
      match alt_match k prev s with
      | Some n => Some n
      | None => first_match alts' prev s
      end
  end.

(** [re.sub(pattern, "", s, flags=re.IGNORECASE)]: the text is scanned
    once from the left, every match is dropped and the scan resumes
    behind it; [\b] always looks at the characters of the text being
    scanned, not at the output. *)
Fixpoint sub_go (alts : pattern) (prev : option ascii) (skip : nat) (s : string) : string :=
  match s with
  | EmptyString => EmptyString
  | String c r =>
      match skip with
      | S n => sub_go alts (Some c) n r
      | O =>
          match first_match alts prev s with
          | Some (S n) => sub_go alts (Some c) n r
          | _ => String c (sub_go alts (Some c) 0 r)
          end
      end
  end.

Definition sub (alts : pattern) (s : string) : string := sub_go alts None 0 s.

(** [re.search(pattern, s, flags=re.IGNORECASE) is not None]. *)
Fixpoint search_go (alts : pattern) (prev : option ascii) (s : string) : bool :=
  match first_match alts prev s with
  | Some _ => true
  | None =>
      match s with
      | EmptyString => false
      | String c r => search_go alts (Some c) r
      end
  end.

Definition search (alts : pattern) (s : string) : bool := search_go alts None s.

(** Shape of a keyword of the taxonomy: it begins and ends with a word
    character and never has two non-word characters in a row. *)
Fixpoint wf_from (pk : ascii) (k : string) : bool :=
  match k with
  | EmptyString => is_word pk
  | String x k' => (is_word pk || is_word x) && wf_from x k'
  end.

Definition wf_kw (k : string) : bool :=
  match k with
  | EmptyString => false
  | String x k' => is_word x && wf_from x k'
  end.

Definition wf_pattern (alts : pattern) : bool := forallb wf_kw alts.

(** [\b k \b] matches somewhere in [s]. *)
Fixpoint occ (k : string) (prev : option ascii) (s : string) : bool :=
  match alt_match k prev s with
  | Some _ => true
  | None =>
      match s with
      | EmptyString => false
      | String c r => occ k (Some c) r
      end
  end.

(** [\b k \b] matches somewhere in [s] at a position where the pattern
    [alts] does not. *)
Fixpoint occ_free (alts : pattern) (k : string) (prev : option ascii) (s : string) : bool :=
  match alt_match k prev s, first_match alts prev s with
  | Some _, None => true
  | _, _ =>
      match s with
      | EmptyString => false
      | String c r => occ_free alts k (Some c) r
      end
  end.

End Re.

(** ** [model2.py]: the sensitive-content filter *)
Module Filter.
Import Py Re.

Definition sensitive_keywords : list pattern :=
  [ ["ethnicity"; "race"; "color"; "religion"; "gender"; "age"; "nationality";
     "marital status"];
    ["black"; "white"; "asian"; "hispanic"; "latino"; "christian"; "muslim";
     "jewish"; "male"; "female"];
    ["born on"; "date of birth"; "DOB"] ].

Definition remove_sensitive_info (text : string) : string :=
  fold_left (fun text pattern => sub pattern text) sensitive_keywords text.

(** A keyword occurs in [s] as a substring, letter case ignored. *)
Fixpoint ci_contains (k s : string) : bool :=
  match lit_ci k None s with
  | Some _ => true
  | None =>
      match s with
      | EmptyString => false
      | String _ s' => ci_contains k s'
      end
  end.

End Filter.

(** ** Exceptions and the effect monad

    A computation reads and updates a state (the calls made to the
    outside world so far, and for the server its globals) and either
    returns a value or raises an exception. *)
Module Eff.

Inductive exn_class : Type :=
  | ValueError | RuntimeError | AttributeError | TypeError | OtherError.

(** An instance of [Exception]: its class, its message ([str(e)]) and
    the exception that was being handled when it was raised
    ([__context__]). *)
#[warnings="-register-all"]
Inductive exn : Type :=
  | Exn (cls : exn_class) (msg : string) (context : option exn).

Definition cls_of (e : exn) : exn_class := match e with Exn c _ _ => c end.
Definition str_of (e : exn) : string := match e with Exn _ m _ => m end.
Definition context_of (e : exn) : option exn := match e with Exn _ _ x => x end.

Inductive result (A : Type) : Type :=
  | Ok (a : A)
  | Raise (e : exn).
Arguments Ok {A} a.
Arguments Raise {A} e.

Definition M (S A : Type) : Type := S -> result A * S.

Definition ret {S A : Type} (a : A) : M S A := fun s => (Ok a, s).
Definition raise {S A : Type} (e : exn) : M S A := fun s => (Raise e, s).
Definition lift {S A : Type} (r : result A) : M S A := fun s => (r, s).

Definition bind {S A B : Type} (m : M S A) (k : A -> M S B) : M S B :=
  fun s =>
    match m s with
    | (Ok a, s') => k a s'
    | (Raise e, s') => (Raise e, s')
    end.

(** [try: m  except Exception as e: h e]. *)
Definition try_except {S A : Type} (m : M S A) (h : exn -> M S A) : M S A :=
  fun s =>
    match m s with
    | (Ok a, s') => (Ok a, s')
    | (Raise e, s') => h e s'
    end.

Module Notations.
Notation "x <- m ;; k" := (bind m (fun x => k))
  (at level 100, m at next level, right associativity).
Notation "m ;;; k" := (bind m (fun _ => k))
  (at level 100, right associativity).
End Notations.

End Eff.

(** ** [model2.py]: reader, entity extractor, synthesizer, orchestrator *)
Module Model2.
Import Py Re Filter Eff Eff.Notations.

(** One dictionary of the token-classification pipeline; only the keys
    that the code reads are kept. *)
Record ner_result : Type := { entity : string; word : string }.

(** The dictionary [entities]; its four keys are fixed. *)
Record entities : Type := {
  name : list string;
  organization : list string;
  skills : list string;
  education : list string
}.

(** What the pipeline does to the outside world, in order. *)
Inductive event : Type :=
  | CallNer (text : string)
  | CallNlp (text : string)
  | CallGenerator (prompt : string)
  | WriteFile (path content : string).

(** The state of the NER loop: [entities["name"]],
    [entities["organization"]] and [current_name]. *)
Definition is_person (e : ner_result) : bool :=
  startswith "B-PER" (entity e) || startswith "I-PER" (entity e).

Definition ner_step (st : list string * list string * list string) (e : ner_result)
  : list string * list string * list string :=
  let '(names, orgs, current_name) := st in
  let '(names1, current1) :=
    if is_person e then (names, (current_name ++ [word e])%list)
    else match current_name with
         | _ :: _ => ((names ++ [replace " ##" "" (join " " current_name)])%list, [])
         | [] => (names, current_name)
         end in
  let orgs1 :=
    if startswith "B-ORG" (entity e)
    then (orgs ++ [replace " ##" "" (word e)])%list
    else orgs in
  (names1, orgs1, current1).

Definition ner_loop (ner_results : list ner_result)
  : list string * list string * list string :=
  fold_left ner_step ner_results ([], [], []).

Definition mentions (keywords : list string) (sent : string) : bool :=
  existsb (fun keyword => contains keyword (str_lower sent)) keywords.

Definition sent_step (st : list string * list string) (sent : string)
  : list string * list string :=
  let '(edu, skl) := st in
  let edu1 :=
    if mentions ["education"; "degree"; "university"; "college"] sent
    then (edu ++ [strip sent])%list else edu in
  let skl1 :=
    if mentions ["skills"; "proficient"; "expertise"] sent
    then (skl ++ [strip sent])%list else skl in
  (edu1, skl1).

Definition sent_loop (sents : list string) : list string * list string :=
  fold_left sent_step sents ([], []).

(** An order in which [list(set(l))] may enumerate [l]: every element
    once, in an order that the hash table decides. *)
Definition set_order_ok (set_list : list string -> list string) : Prop :=
  forall l, List.NoDup (set_list l) /\ forall x, In x (set_list l) <-> In x l.

(** One such order: the distinct elements, last seen first. *)
Definition reverse_order (l : list string) : list string :=
  rev (nodup String.string_dec l).


(** The template of [generate_report]. *)
Definition field (l : list string) : string :=
  match l with
  | [] => "Not Provided"
  | _ :: _ => join ", " l
  end.

Definition report_prompt (ents : entities) : string :=
  join nl
    [ "";
      "    Candidate Report";
      "";
      "    Name: " ++ match name ents with
                      | n :: _ => n
                      | [] => "Not Provided"
                      end;
      "    Qualifications: " ++ field (education ents);
      "    Experience: " ++ field (organization ents);
      "    Skills: " ++ field (skills ents);
      "";
      "    Summarize the above information in a professional tone for HR review, focusing on qualifications, experience, and skills.";
      "    " ].

Section Pipeline.

(** [docx.Document(file_path).paragraphs], as the texts of the
    paragraphs, or the exception of the parser. *)
Variable docx_Document : string -> result (list string).
(** The token classifier [dslim/bert-base-NER]; like every call into a
    library it either answers or raises. *)
Variable ner_pipeline : string -> result (list ner_result).
(** The sentences of [nlp(text).sents]. *)
Variable nlp_sents : string -> result (list string).
(** [generator(prompt, ...)[0]["generated_text"]] of [distilgpt2].  The
    code sets no seed and leaves sampling to the defaults of the model,
    so the answer may depend on what was called before; the calls made
    so far stand for the state of the sampler. *)
Variable generator : list event -> string -> result string.
(** [list(set(l))]. *)
Variable set_list : list string -> list string.
(** [open(output_path, "w")] and [f.write(report)]. *)
Variable write_file : string -> string -> result unit.

Definition emit (e : event) : M (list event) unit :=
  fun log => (Ok tt, (log ++ [e])%list).

Definition calls_so_far : M (list event) (list event) :=
  fun log => (Ok log, log).

Definition read_docx (file_path : string) : M (list event) string :=
  paragraphs <- lift (docx_Document file_path) ;;
  let full_text := fold_left (fun acc para => (acc ++ [para])%list) paragraphs [] in
  ret (join nl full_text).

(** The dictionary that [extract_entities] returns, from the answers of
    the two models. *)
Definition build_entities (ner_results : list ner_result) (sents : list string)
  : entities :=
  let '(names, orgs, _) := ner_loop ner_results in
  let '(edu, skl) := sent_loop sents in
  {| name := firstn 1 (set_list names);
     organization := set_list orgs;
     skills := set_list skl;
     education := set_list edu |}.

Definition extract_entities (text : string) : M (list event) entities :=
  emit (CallNer text) ;;;
  ner_results <- lift (ner_pipeline text) ;;
  emit (CallNlp text) ;;;
  sents <- lift (nlp_sents text) ;;
  ret (build_entities ner_results sents).

Definition generate_report (ents : entities) : M (list event) string :=
  let prompt := report_prompt ents in
  drawn <- calls_so_far ;;
  emit (CallGenerator prompt) ;;;
  lift (generator drawn prompt).

(** [WriteFile] is logged once the report is in the file. *)
Definition process_resume (file_path output_path : string) : M (list event) string :=
  text <- read_docx file_path ;;
  let cleaned_text := remove_sensitive_info text in
  ents <- extract_entities cleaned_text ;;
  report <- generate_report ents ;;
  lift (write_file output_path report) ;;;
  emit (WriteFile output_path report) ;;;
  ret report.

End Pipeline.

End Model2.

(** ** [Model/backend/app.py]: the server around the LLaMA model *)
Module App.
Import Py Eff Eff.Notations.

(** A decoded JSON value; of a number only its type and its being zero
    or not are ever looked at: an [int] is kept as an integer, and of a
    [float] only whether it is zero. *)
#[warnings="-register-all"]
Inductive json : Type :=
  | JNull
  | JBool (b : bool)
  | JNum (z : Z)
  | JFloat (zero : bool)
  | JStr (s : string)
  | JArr (l : list json)
  | JObj (m : gmap string json).

(** Python truthiness, as [not x] tests it. *)
Definition truthy (v : json) : bool :=
  match v with
  | JNull => false
  | JBool b => b
  | JNum z => negb (Z.eqb z 0)
  | JFloat zero => negb zero
  | JStr s => negb (String.eqb s "")
  | JArr l => match l with [] => false | _ :: _ => true end
  | JObj m => negb (bool_decide (m = ∅))
  end.

Definition type_name (v : json) : string :=
  match v with
  | JNull => "NoneType"
  | JBool _ => "bool"
  | JNum _ => "int"
  | JFloat _ => "float"
  | JStr _ => "str"
  | JArr _ => "list"
  | JObj _ => "dict"
  end.

Definition no_attribute (v : json) (attr : string) : exn :=
  Exn AttributeError
      ("'" ++ type_name v ++ "' object has no attribute '" ++ attr ++ "'") None.

(** [request.is_json] and [request.get_json()]; the latter raises
    werkzeug's [BadRequest] when the body cannot be parsed. *)
Record request : Type := { is_json : bool; get_json : result json }.

(** [jsonify(body), status]. *)
Record response : Type := { body : gmap string string; status : nat }.

Record message : Type := { role : string; content : string }.

Inductive event : Type :=
  | Print (line : string)
  | CallChatTemplate (messages : list message)
  | CallTokenizer (input_text : string)
  | CallGenerate (input_ids : list nat)
  | CallDecode (ids : list nat).

(** The globals of the module that the request path reads, and the calls
    made so far. *)
Record world : Type := { model_loaded : bool; trace : list event }.

Definition emit (e : event) : M world unit :=
  fun w => (Ok tt, {| model_loaded := model_loaded w; trace := (trace w ++ [e])%list |}).

(** The world after [print(line)]. *)
Definition logged (line : string) (w : world) : world :=
  {| model_loaded := model_loaded w; trace := (trace w ++ [Print line])%list |}.

(** The two exceptions of [generate_llama_report]: the model is not
    loaded, and the generation raised [e]. *)
Definition not_ready : exn := Exn RuntimeError "LLaMA model not loaded." None.

Definition wrapped (e : exn) : exn :=
  Exn RuntimeError ("Failed to generate report: " ++ str_of e) (Some e).

(** The answer of a computation does not depend on the calls made
    before it, only on the readiness flag, which it leaves as it is. *)
Definition oblivious {A : Type} (m : M world A) : Prop :=
  forall w1 w2, model_loaded w1 = model_loaded w2 ->
    fst (m w1) = fst (m w2) /\ model_loaded (snd (m w1)) = model_loaded w1.

Definition get_model_loaded : M world bool :=
  fun w => (Ok (model_loaded w), w).

Definition calls_so_far : M world (list event) :=
  fun w => (Ok (trace w), w).

Definition system_content : string :=
  "You are an expert HR AI assistant specializing in bias-free resume screening. Your task is to extract and summarize ONLY objective, professional information from resumes: qualifications, experience, and skills. It is IMPERATIVE that you COMPLETELY OMIT any and all personal or demographic details that could introduce bias. Maintain a strictly professional, neutral, and concise tone. Your output should be a clear, structured report.".

Definition user_content (resume_text : string) : string :=
    join nl
      [ "";
        "        Analyze the following resume content and provide a summary for HR review.";
        "";
        "        STRICT EXCLUSION RULES (Do NOT include these under ANY circumstances):";
        "        - Candidate's Name (first, last, full names, initials, nicknames).";
        "        - Any personal identifying information.";
        "        - Gender (pronouns like he/she, or terms like male/female, woman/man, etc.).";
        "        - Age, Date of Birth, or any age-related references (e.g., " ++ dq ++ "graduated in X" ++ dq ++ ", " ++ dq ++ "born in 19XX" ++ dq ++ ").";
        "        - Ethnicity, Race, Religion, or Nationality.";
        "        - Marital Status or family information.";
        "        - Contact information (email, phone number, physical address, personal social media links, personal websites).";
        "        - Photos or image descriptions.";
        "        - Any political affiliations, non-professional awards, or hobbies.";
        "        - Any information that is not directly related to professional qualifications, experience, or demonstrable skills.";
        "";
        "        Focus ONLY on the following professional categories:";
        "        - Academic Qualifications (degrees, institutions, major fields).";
        "        - Work Experience (company names, job titles, key responsibilities, quantifiable achievements/impact).";
        "        - Technical and Professional Skills (programming languages, software, tools, methodologies, and relevant professional soft skills like problem-solving, communication, teamwork).";
        "";
        "        Format the report clearly with distinct headings: " ++ dq ++ "Qualifications" ++ dq ++ ", " ++ dq ++ "Experience" ++ dq ++ ", and " ++ dq ++ "Skills" ++ dq ++ ". Use bullet points or clear paragraphs.";
        "";
        "        Resume Content:";
        "        " ++ resume_text;
        "";
        "        Candidate Report (Bias-Free):";
        "        " ].

Definition messages_for (resume_text : string) : list message :=
  [ {| role := "system"; content := system_content |};
    {| role := "user"; content := user_content resume_text |} ].

Section Server.

(** [docx.Document(io.BytesIO(docx_bytes)).paragraphs], as texts. *)
Variable docx_Document : list Byte.byte -> result (list string).
(** [base64.b64decode] on a [str]. *)
Variable b64decode : string -> result (list Byte.byte).
(** The tokenizer and the model, once loaded.  [model.generate] is
    called with [do_sample=True, temperature=0.4, top_p=0.9] and no seed
    is ever set, so what it returns may depend on what was generated
    before; the calls made so far stand for the state of the sampler. *)
Variable apply_chat_template : list message -> result string.
Variable tokenizer_call : string -> result (list nat).
Variable model_generate : list event -> list nat -> result (list nat).
Variable batch_decode : list nat -> result string.
Variable eos_token : string.

Definition call {A B : Type} (ev : event) (f : A -> result B) (a : A) : M world B :=
  emit ev ;;; lift (f a).

Definition read_docx_from_bytes (docx_bytes : list Byte.byte) : M world string :=
  try_except
    (paragraphs <- lift (docx_Document docx_bytes) ;;
     let full_text := fold_left (fun acc para => (acc ++ [para])%list) paragraphs [] in
     ret (join nl full_text))
    (fun e =>
       emit (Print ("Error reading DOCX: " ++ str_of e)) ;;;
       raise (Exn ValueError "Could not read DOCX file." (Some e))).

(** The body of the [try] of [generate_llama_report]. *)
Definition generation (resume_text : string) : M world string :=
  let messages := messages_for resume_text in
  input_text <- call (CallChatTemplate messages) apply_chat_template messages ;;
  input_ids <- call (CallTokenizer input_text) tokenizer_call input_text ;;
  drawn <- calls_so_far ;;
  generated_ids <- call (CallGenerate input_ids) (model_generate drawn) input_ids ;;
  let new_ids := skipn (length input_ids) generated_ids in
  generated_report <- call (CallDecode new_ids) batch_decode new_ids ;;
  ret (strip (replace eos_token "" generated_report)).

Definition generate_llama_report (resume_text : string) : M world string :=
  loaded <- get_model_loaded ;;
  if negb loaded then raise not_ready
  else
    try_except (generation resume_text)
      (fun e =>
         emit (Print ("Error during LLaMA generation: " ++ str_of e)) ;;;
         raise (wrapped e)).

Definition error_response (msg : string) (code : nat) : response :=
  {| body := {[ "error" := msg ]}; status := code |}.

Definition report_response (report : string) : response :=
  {| body := {[ "report" := report ]}; status := 200 |}.

(** [data.get(key)]; a body that is not an object has no [get]. *)
Definition data_get (data : json) (key : string) : M world json :=
  match data with
  | JObj m => ret (default JNull (m !! key))
  | _ => raise (no_attribute data "get")
  end.

(** [file_name.endswith('.docx')]. *)
Definition json_endswith (v : json) (suffix : string) : M world bool :=
  match v with
  | JStr s => ret (endswith suffix s)
  | _ => raise (no_attribute v "endswith")
  end.

(** [base64.b64decode(v)]. *)
Definition json_b64decode (v : json) : M world (list Byte.byte) :=
  match v with
  | JStr s => lift (b64decode s)
  | _ =>
      raise (Exn TypeError
        ("argument should be a bytes-like object or ASCII string, not '"
         ++ type_name v ++ "'") None)
  end.

(** The view function; an exception that leaves it is one that none of
    its handlers caught. *)
Definition process_resume (req : request) : M world response :=
  if negb (is_json req) then ret (error_response "Request must be JSON" 400)
  else
    data <- lift (get_json req) ;;
    base64_file_content <- data_get data "fileContent" ;;
    file_name <- data_get data "fileName" ;;
    if negb (truthy base64_file_content)
    then ret (error_response "No file content provided" 400)
    else
      is_docx <- json_endswith file_name ".docx" ;;
      if negb is_docx
      then ret (error_response "Only .docx files are supported" 400)
      else
        try_except
          (docx_bytes <- json_b64decode base64_file_content ;;
           raw_resume_text <- read_docx_from_bytes docx_bytes ;;
           final_report <- generate_llama_report raw_resume_text ;;
           ret (report_response final_report))
          (fun e =>
             match cls_of e with
             | ValueError => ret (error_response (str_of e) 400)
             | RuntimeError => ret (error_response (str_of e) 500)
             | _ =>
                 emit (Print ("Unhandled error: " ++ str_of e)) ;;;
                 ret (error_response "An unexpected error occurred on the server." 500)
             end).

End Server.

End App.

(** ** Concrete inputs and stand-ins for the external collaborators,
    used to run the definitions *)
Module Examples.
Import Py Eff Model2.

(** The scenario text of the specification. *)
Definition scenario : string :=
  "John Doe, male, age 34, worked at Acme Corp as Engineer. Skills: Java, Leadership.".

Definition two_people : list ner_result :=
  [ {| entity := "B-PER"; word := "Bob" |};
    {| entity := "B-ORG"; word := "Acme" |};
    {| entity := "B-PER"; word := "Al" |};
    {| entity := "B-ORG"; word := "Inc" |} ].

Definition acme_corp : list ner_result :=
  [ {| entity := "B-ORG"; word := "Acme" |};
    {| entity := "I-ORG"; word := "Corp" |} ].

Definition john_doe : list ner_result :=
  [ {| entity := "B-PER"; word := "John" |};
    {| entity := "I-PER"; word := "Doe" |} ].

Definition alice : list string := ["Alice Smith"; "Skills: Python, SQL"].

Definition one_word : list string := ["male"].

(** A parser that finds the given paragraphs in every container. *)
Definition docx_of {A : Type} (paragraphs : list string) (_ : A)
  : result (list string) := Ok paragraphs.

Definition no_entities (_ : string) : result (list ner_result) := Ok [].
Definition one_sentence (text : string) : result (list string) := Ok [text].
Definition echo (_ : list event) (prompt : string) : result string := Ok prompt.
Definition write_ok (_ _ : string) : result unit := Ok tt.

Definition b64_any (_ : string) : result (list Byte.byte) := Ok [].
Definition chat (messages : list App.message) : result string :=
  Ok (join nl (map App.content messages)).
Definition tok (text : string) : result (list nat) :=
  Ok (map code (list_ascii_of_string text)).
Definition gen_ok (_ : list App.event) (ids : list nat) : result (list nat) :=
  Ok (ids ++ [79; 75])%list.
Definition out_of_memory : exn := Exn OtherError "out of memory" None.
Definition gen_fail (_ : list App.event) (_ : list nat) : result (list nat) :=
  Raise out_of_memory.
Definition decode (ids : list nat) : result string :=
  Ok (string_of_list_ascii (map ascii_of_nat ids)).

Definition loaded : App.world := {| App.model_loaded := true; App.trace := [] |}.
Definition not_loaded : App.world := {| App.model_loaded := false; App.trace := [] |}.

(** A well-formed request for a [.docx] file. *)
Definition good_request : App.request :=
  {| App.is_json := true;
     App.get_json :=
       Ok (App.JObj (<[ "fileName" := App.JStr "cv.docx" ]>
                       {[ "fileContent" := App.JStr "bWFsZQ==" ]})) |}.

(** A request that is not JSON. *)
Definition not_json : App.request :=
  {| App.is_json := false; App.get_json := Ok App.JNull |}.

(** A request that says it is JSON and whose body cannot be parsed. *)
Definition bad_request : exn :=
  Exn OtherError
      "400 Bad Request: The browser (or proxy) sent a request that this server could not understand."
      None.

Definition unparsable : App.request :=
  {| App.is_json := true; App.get_json := Raise bad_request |}.

(** A request whose file content is a number. *)
Definition number_content : App.request :=
  {| App.is_json := true;
     App.get_json :=
       Ok (App.JObj (<[ "fileName" := App.JStr "cv.docx" ]>
                       {[ "fileContent" := App.JNum 7 ]})) |}.

Definition docx_broken {A : Type} (_ : A) : result (list string) :=
  Raise (Exn OtherError "File is not a zip file" None).

(** A request with file content and no [fileName] key. *)
Definition no_file_name : App.request :=
  {| App.is_json := true;
     App.get_json := Ok (App.JObj {[ "fileContent" := App.JStr "bWFsZQ==" ]}) |}.

End Examples.

(** ** Names for parts of the code that the further properties speak of *)
Module Parts.
Import Py Eff.

(** The name that the NER loop commits for [current_name]. *)
Definition merged (current_name : list string) : string :=
  replace " ##" "" (join " " current_name).

(** The test of the organization branch of the NER loop. *)
Definition is_org (e : Model2.ner_result) : bool :=
  startswith "B-ORG" (Model2.entity e).

(** What the full mode may hand to a model once the text of the reader
    has been filtered to [cleaned]: the classifiers get [cleaned] itself,
    the generator the prompt built from their answers on [cleaned]. *)
Definition fed_filtered
    (ner_pipeline : string -> result (list Model2.ner_result))
    (nlp_sents : string -> result (list string))
    (set_list : list string -> list string)
    (cleaned : string) (ev : Model2.event) : Prop :=
  match ev with
  | Model2.CallNer text => text = cleaned
  | Model2.CallNlp text => text = cleaned
  | Model2.CallGenerator prompt =>
      exists ner_results sents,
        ner_pipeline cleaned = Ok ner_results /\
        nlp_sents cleaned = Ok sents /\
        prompt = Model2.report_prompt (Model2.build_entities set_list ner_results sents)
  | Model2.WriteFile _ _ => True
  end.


(** The events of the full mode that write the report. *)
Definition is_write (ev : Model2.event) : bool :=
  match ev with
  | Model2.WriteFile _ _ => true
  | _ => false
  end.

(** The first line that [load_llama_model] prints when it loads. *)
Definition loading_line : string :=
  "Loading LLaMA 3.1 model for CPU: meta-llama/Meta-Llama-3.1-8B-Instruct...".

(** Two loaders: one that succeeds and one that is refused. *)
Definition loader_ok (_ _ : string) : result unit := Ok tt.
Definition loader_fails (_ _ : string) : result unit :=
  Raise (Exn OtherError "401 Client Error" None).

(** The events of the server that reach the tokenizer or the model. *)
Definition is_model_call (ev : App.event) : bool :=
  match ev with
  | App.Print _ => false
  | _ => true
  end.

(** The world [w'] is [w] after some more calls: the readiness flag is
    the same and the log has only grown. *)
Definition extends (w w' : App.world) : Prop :=
  App.model_loaded w' = App.model_loaded w /\
  exists rest, App.trace w' = (App.trace w ++ rest)%list.

(** A computation that leaves the flag alone and only adds to the log. *)
Definition steady {A : Type} (m : M App.world A) : Prop :=
  forall w, extends w (snd (m w)).

(** The body of the [try] of the view function and its three handlers. *)
Section Attempt.

Variable docx_Document : list Byte.byte -> result (list string).
Variable b64decode : string -> result (list Byte.byte).
Variable apply_chat_template : list App.message -> result string.
Variable tokenizer_call : string -> result (list nat).
Variable model_generate : list App.event -> list nat -> result (list nat).
Variable batch_decode : list nat -> result string.
Variable eos_token : string.

Definition attempt (base64_file_content : App.json) : M App.world App.response :=
  bind (App.json_b64decode b64decode base64_file_content) (fun docx_bytes =>
  bind (App.read_docx_from_bytes docx_Document docx_bytes) (fun raw_resume_text =>
  bind (App.generate_llama_report apply_chat_template tokenizer_call model_generate
          batch_decode eos_token raw_resume_text) (fun final_report =>
  ret (App.report_response final_report)))).

Definition handlers (e : exn) : M App.world App.response :=
  match cls_of e with
  | ValueError => ret (App.error_response (str_of e) 400)
  | RuntimeError => ret (App.error_response (str_of e) 500)
  | _ =>
      bind (App.emit (App.Print ("Unhandled error: " ++ str_of e))) (fun _ =>
      ret (App.error_response "An unexpected error occurred on the server." 500))
  end.

End Attempt.

End Parts.

(** ** [app.py]: loading the model at start-up *)
Module Startup.
Import Py Eff Eff.Notations App.

Definition LLAMA_MODEL_ID : string := "meta-llama/Meta-Llama-3.1-8B-Instruct".
Definition DEVICE : string := "cpu".

(** [load_llama_model] either returns or ends the process with
    [exit(status)]. *)
Inductive outcome : Type :=
  | Returned (w : world)
  | Exited (status : nat) (w : world).

Definition set_model_loaded : M world unit :=
  fun w => (Ok tt, {| model_loaded := true; trace := trace w |}).

Definition token_not_set : exn :=
  Exn ValueError
      "HUGGING_FACE_HUB_TOKEN environment variable not set. Please set it." None.

Section Load.

(** [os.environ]. *)
Variable environ : gmap string string.
(** [AutoTokenizer.from_pretrained(model_id, token=hf_token)]. *)
Variable tokenizer_from_pretrained : string -> string -> result unit.
(** [AutoModelForCausalLM.from_pretrained(model_id, low_cpu_mem_usage=True,
    token=hf_token).to(DEVICE)] followed by [model.eval()]. *)
Variable model_from_pretrained : string -> string -> result unit.

(** The body of the [try]. *)
Definition loading : M world unit :=
  let hf_token := environ !! "HUGGING_FACE_HUB_TOKEN" in
  token <- match hf_token with
           | Some t => if String.eqb t "" then raise token_not_set else ret t
           | None => raise token_not_set
           end ;;
  lift (tokenizer_from_pretrained LLAMA_MODEL_ID token) ;;;
  lift (model_from_pretrained LLAMA_MODEL_ID token) ;;;
  set_model_loaded ;;;
  emit (Print ("LLaMA 3.1 model loaded successfully on " ++ DEVICE ++ ".")).

Definition load_llama_model (w : world) : outcome :=
  if model_loaded w then Returned (logged "Model already loaded." w)
  else
    match (emit (Print ("Loading LLaMA 3.1 model for CPU: " ++ LLAMA_MODEL_ID ++ "..."))
           ;;; loading) w with
    | (Ok _, w') => Returned w'
    | (Raise e, w') => Exited 1 (logged ("Error loading LLaMA model: " ++ str_of e) w')
    end.

End Load.

End Startup.

(** * Properties *)

(** ** The scanner of [re.sub] *)
Module ReFacts.
Import Py Re.

Lemma lower_word c : is_word (lower c) = is_word c.
Proof. destruct c as [[] [] [] [] [] [] [] []]; vm_compute; reflexivity. Qed.

Lemma ci_eqb_word x c : ci_eqb x c = true -> is_word c = is_word x.
Proof.
  unfold ci_eqb. intros H. apply Ascii.eqb_eq in H.
  rewrite <- (lower_word c), <- (lower_word x). now rewrite H.
Qed.

Lemma lit_ci_drop k : forall prev s p r,
  lit_ci k prev s = Some (p, r) ->
  p = before prev (String.length k) s /\ r = drop (String.length k) s.
Proof.
  induction k as [|x k IH]; intros prev s p r H; simpl in *.
  - inversion H; subst. split; reflexivity.
  - destruct s as [|c s]; [discriminate|].
    destruct (ci_eqb x c); [|discriminate]. now apply IH.
Qed.

Lemma lit_ci_last k : forall pk c s p r,
  is_word c = is_word pk -> wf_from pk k = true ->
  lit_ci k (Some c) s = Some (p, r) -> word_opt p = true.
Proof.
  induction k as [|x k IH]; intros pk c s p r Hc Hwf H; simpl in *.
  - inversion H; subst. simpl. congruence.
  - apply andb_prop in Hwf as [_ Hwf].
    destruct s as [|d s]; [discriminate|].
    destruct (ci_eqb x d) eqn:E; [|discriminate].
    eapply IH; [apply (ci_eqb_word _ _ E)|exact Hwf|exact H].
Qed.

(** What a match of a well-formed keyword looks like. *)
Lemma alt_match_inv k prev s n :
  wf_kw k = true -> alt_match k prev s = Some n ->
  word_opt prev = false /\ word_opt (hd s) = true /\
  (exists m, n = S m) /\
  word_opt (hd (drop n s)) = false.
Proof.
  intros Hwf H. unfold alt_match in H.
  destruct (bdry prev (hd s)) eqn:B1; [|discriminate].
  destruct (lit_ci k prev s) as [[p r]|] eqn:L; [|discriminate].
  destruct (bdry p (hd r)) eqn:B2; [|discriminate].
  inversion H; subst n; clear H.
  destruct k as [|x k]; [discriminate|]. simpl in Hwf.
  apply andb_prop in Hwf as [Hx Hwf].
  destruct (lit_ci_drop _ _ _ _ _ L) as [_ Hr].
  simpl in L. destruct s as [|c s]; [discriminate|].
  destruct (ci_eqb x c) eqn:E; [|discriminate].
  pose proof (ci_eqb_word _ _ E) as Hc.
  pose proof (lit_ci_last _ _ _ _ _ _ Hc Hwf L) as Hp.
  unfold bdry in B1, B2. simpl in B1. rewrite Hc, Hx in B1.
  rewrite Hp in B2. subst r.
  repeat split.
  - now destruct (word_opt prev).
  - simpl. congruence.
  - eexists; reflexivity.
  - now destruct (word_opt (hd (drop (String.length (String x k)) (String c s)))).
Qed.

Lemma first_match_inv alts prev s n :
  first_match alts prev s = Some n ->
  exists k, In k alts /\ alt_match k prev s = Some n.
Proof.
  induction alts as [|a alts IH]; simpl; [discriminate|].
  destruct (alt_match a prev s) eqn:E.
  - intros H; inversion H; subst. exists a; auto.
  - intros H. destruct (IH H) as [k [? ?]]. exists k; auto.
Qed.

Lemma first_match_some alts k prev s n :
  In k alts -> alt_match k prev s = Some n -> first_match alts prev s <> None.
Proof.
  induction alts as [|a alts IH]; simpl; [tauto|].
  intros [->|Hin] H.
  - now rewrite H.
  - destruct (alt_match a prev s); [discriminate|eauto].
Qed.

Lemma wf_pattern_In alts k : wf_pattern alts = true -> In k alts -> wf_kw k = true.
Proof. unfold wf_pattern. rewrite forallb_forall. auto. Qed.

Lemma first_match_wf alts prev s n :
  wf_pattern alts = true -> first_match alts prev s = Some n ->
  word_opt prev = false /\ word_opt (hd s) = true /\
  (exists m, n = S m) /\
  word_opt (hd (drop n s)) = false.
Proof.
  intros Hwf H. destruct (first_match_inv _ _ _ _ H) as [k [Hin Hk]].
  eapply alt_match_inv; eauto using wf_pattern_In.
Qed.

Lemma sub_go_skip alts : forall n s prev,
  sub_go alts prev n s = sub_go alts (before prev n s) 0 (drop n s).
Proof.
  induction n as [|n IH]; intros s prev.
  - now destruct s.
  - destruct s as [|c r]; [reflexivity|]. simpl. apply IH.
Qed.

Lemma sub_go_match alts prev s n :
  wf_pattern alts = true -> first_match alts prev s = Some n ->
  sub_go alts prev 0 s = sub_go alts (before prev n s) 0 (drop n s).
Proof.
  intros Hwf H. destruct (first_match_wf _ _ _ _ Hwf H) as (_ & Hs & [m ->] & _).
  destruct s as [|c r]; [discriminate|].
  simpl sub_go at 1. rewrite H. now rewrite sub_go_skip.
Qed.

Lemma sub_go_nomatch alts prev c r :
  first_match alts prev (String c r) = None ->
  sub_go alts prev 0 (String c r) = String c (sub_go alts (Some c) 0 r).
Proof. intros H. simpl sub_go at 1. now rewrite H. Qed.

(** Behind a non-word character the output starts with that character. *)
Lemma sub_go_hd alts prev s :
  wf_pattern alts = true -> word_opt (hd s) = false ->
  word_opt (hd (sub_go alts prev 0 s)) = false.
Proof.
  intros Hwf Hs. destruct s as [|d r]; [reflexivity|].
  destruct (first_match alts prev (String d r)) as [n|] eqn:F.
  - destruct (first_match_wf _ _ _ _ Hwf F) as (_ & Hd & _). congruence.
  - now rewrite sub_go_nomatch.
Qed.

(** A keyword read off the output was already there in the input: the
    scanner never glues two pieces of text into a keyword, because both
    sides of a removed match are non-word characters. *)
Lemma lit_ci_sub alts k :
  wf_pattern alts = true ->
  forall pk c r p ro,
  is_word c = is_word pk -> wf_from pk k = true ->
  lit_ci k (Some c) (sub_go alts (Some c) 0 r) = Some (p, ro) ->
  bdry p (hd ro) = true ->
  exists p2 r2, lit_ci k (Some c) r = Some (p2, r2) /\ bdry p2 (hd r2) = true.
Proof.
  intros Halts. induction k as [|x k IH]; intros pk c r p ro Hc Hwf L B.
  - simpl in *. inversion L; subst p ro; clear L.
    exists (Some c), r. split; [reflexivity|].
    rewrite Hwf in Hc. unfold bdry in *. simpl in *. rewrite Hc in *.
    destruct r as [|d r]; [reflexivity|].
    destruct (first_match alts (Some c) (String d r)) as [n|] eqn:F.
    + destruct (first_match_wf _ _ _ _ Halts F) as (Hp & _). simpl in Hp. congruence.
    + rewrite sub_go_nomatch in B by exact F. exact B.
  - simpl in Hwf. apply andb_prop in Hwf as [Hadj Hwf].
    destruct r as [|d r]; [discriminate|].
    destruct (first_match alts (Some c) (String d r)) as [n|] eqn:F.
    + exfalso.
      destruct (first_match_wf _ _ _ _ Halts F) as (Hp & _ & _ & Hd).
      simpl in Hp. rewrite (sub_go_match _ _ _ _ Halts F) in L.
      pose proof (sub_go_hd alts (before (Some c) n (String d r)) _ Halts Hd) as Ho.
      simpl in L.
      destruct (sub_go alts (before (Some c) n (String d r)) 0 (drop n (String d r)))
        as [|e out]; [discriminate|].
      destruct (ci_eqb x e) eqn:E; [|discriminate].
      apply ci_eqb_word in E. simpl in Ho.
      rewrite <- Hc, Hp, <- E, Ho in Hadj. discriminate.
    + rewrite sub_go_nomatch in L by exact F. simpl in L. simpl.
      destruct (ci_eqb x d) eqn:E; [|discriminate].
      exact (IH x d r p ro (ci_eqb_word _ _ E) Hwf L B).
Qed.

Lemma alt_match_sub alts k prev prev' c r n :
  wf_pattern alts = true -> wf_kw k = true ->
  (prev' = prev \/ (word_opt prev' = false /\ word_opt (hd (String c r)) = false)) ->
  alt_match k prev' (String c (sub_go alts (Some c) 0 r)) = Some n ->
  alt_match k prev (String c r) = Some n.
Proof.
  intros Halts Hwf Hinv H.
  destruct (alt_match_inv _ _ _ _ Hwf H) as (Hp' & Hc & _).
  unfold alt_match in *. simpl hd in *.
  destruct (bdry prev' (Some c)) eqn:B1; [|discriminate].
  assert (B1' : bdry prev (Some c) = true).
  { destruct Hinv as [->|[_ Hn]]; [exact B1|congruence]. }
  rewrite B1'.
  destruct k as [|x k]; [discriminate|]. simpl in Hwf.
  apply andb_prop in Hwf as [Hx Hwf]. simpl in H. simpl.
  destruct (ci_eqb x c) eqn:E; [|discriminate].
  destruct (lit_ci k (Some c) (sub_go alts (Some c) 0 r)) as [[p ro]|] eqn:L; [|discriminate].
  destruct (bdry p (hd ro)) eqn:B2; [|discriminate].
  destruct (lit_ci_sub alts k Halts x c r p ro (ci_eqb_word _ _ E) Hwf L B2)
    as (p2 & r2 & L2 & B3).
  now rewrite L2, B3.
Qed.

Lemma drop_length : forall n s, String.length (drop n s) = String.length s - n.
Proof.
  induction n as [|n IH]; intros [|c s]; simpl; auto. 
Qed.

Lemma occ_free_tail alts k prev c r :
  occ_free alts k (Some c) r = true -> occ_free alts k prev (String c r) = true.
Proof.
  intros H. simpl.
  destruct (alt_match k prev (String c r)); [|exact H].
  destruct (first_match alts prev (String c r)); [exact H|reflexivity].
Qed.

Lemma occ_free_suffix alts k : forall n s prev,
  occ_free alts k (before prev n s) (drop n s) = true ->
  occ_free alts k prev s = true.
Proof.
  induction n as [|n IH]; intros s prev H.
  - destruct s; exact H.
  - destruct s as [|c r]; [exact H|]. simpl in H.
    apply occ_free_tail, IH, H.
Qed.

(** Every match of [\b k \b] in the output of one [re.sub] pass sits at
    a position of the input where [k] matched and the pattern did not. *)
Lemma occ_sub_go alts k :
  wf_pattern alts = true -> wf_kw k = true ->
  forall n s prev prev', String.length s <= n ->
  (prev' = prev \/ (word_opt prev' = false /\ word_opt (hd s) = false)) ->
  occ k prev' (sub_go alts prev 0 s) = true -> occ_free alts k prev s = true.
Proof.
  intros Halts Hwf. induction n as [|n IH]; intros s prev prev' Hlen Hinv H.
  - destruct s; [|simpl in Hlen; lia]. simpl in H.
    destruct (alt_match k prev' "") eqn:A; [|discriminate].
    destruct (alt_match_inv _ _ _ _ Hwf A) as (_ & Hs & _). discriminate.
  - destruct s as [|c r].
    + simpl in H.
      destruct (alt_match k prev' "") eqn:A; [|discriminate].
      destruct (alt_match_inv _ _ _ _ Hwf A) as (_ & Hs & _). discriminate.
    + destruct (first_match alts prev (String c r)) as [m|] eqn:F.
      * destruct (first_match_wf _ _ _ _ Halts F) as (Hp & Hc & [m' ->] & Hd).
        rewrite (sub_go_match _ _ _ _ Halts F) in H.
        apply (occ_free_suffix alts k (S m')).
        apply (IH _ _ prev'); [| |exact H].
        -- rewrite drop_length. simpl in *. lia.
        -- right. split; [|exact Hd].
           destruct Hinv as [->|[? _]]; assumption.
      * rewrite sub_go_nomatch in H by exact F.
        simpl occ in H.
        destruct (alt_match k prev' (String c (sub_go alts (Some c) 0 r))) eqn:A.
        -- apply (alt_match_sub _ _ prev) in A; auto.
           simpl. now rewrite A, F.
        -- apply occ_free_tail. apply (IH _ _ (Some c)); auto.
           simpl in Hlen. lia.
Qed.

Lemma occ_free_same alts k :
  In k alts -> forall s prev, occ_free alts k prev s = false.
Proof.
  intros Hin. induction s as [|c r IH]; intros prev; simpl.
  - destruct (alt_match k prev "") eqn:A; [|reflexivity].
    destruct (first_match alts prev "") eqn:F; [reflexivity|].
    now destruct (first_match_some _ _ _ _ _ Hin A).
  - destruct (alt_match k prev (String c r)) eqn:A; [|apply IH].
    destruct (first_match alts prev (String c r)) eqn:F; [apply IH|].
    now destruct (first_match_some _ _ _ _ _ Hin A).
Qed.

Lemma occ_free_occ alts k : forall s prev,
  occ_free alts k prev s = true -> occ k prev s = true.
Proof.
  induction s as [|c r IH]; intros prev; simpl.
  - destruct (alt_match k prev ""); [reflexivity|].
    now destruct (first_match alts prev "").
  - destruct (alt_match k prev (String c r)); [reflexivity|]. apply IH.
Qed.

Lemma search_go_occ alts : forall s prev,
  search_go alts prev s = true -> exists k, In k alts /\ occ k prev s = true.
Proof.
  induction s as [|c r IH]; intros prev; simpl.
  - destruct (first_match alts prev "") eqn:F; [|discriminate].
    destruct (first_match_inv _ _ _ _ F) as (k & Hin & A).
    intros _. exists k. now rewrite A.
  - destruct (first_match alts prev (String c r)) eqn:F.
    + destruct (first_match_inv _ _ _ _ F) as (k & Hin & A).
      intros _. exists k. now rewrite A.
    + intros H. destruct (IH _ H) as (k & Hin & Hk). exists k. split; [exact Hin|].
      destruct (alt_match k prev (String c r)); [reflexivity|exact Hk].
Qed.

(** One pass removes every match of its own pattern. *)
Lemma sub_complete alts k s :
  wf_pattern alts = true -> In k alts -> occ k None (sub alts s) = false.
Proof.
  intros Halts Hin. destruct (occ k None (sub alts s)) eqn:E; [|reflexivity].
  apply (occ_sub_go alts k Halts (wf_pattern_In _ _ Halts Hin) (String.length s)) in E;
    [|lia|now left].
  now rewrite (occ_free_same alts k Hin) in E.
Qed.

(** One pass creates no match of any other well-formed keyword. *)
Lemma sub_preserves alts k s :
  wf_pattern alts = true -> wf_kw k = true ->
  occ k None s = false -> occ k None (sub alts s) = false.
Proof.
  intros Halts Hwf Hs. destruct (occ k None (sub alts s)) eqn:E; [|reflexivity].
  apply (occ_sub_go alts k Halts Hwf (String.length s)) in E; [|lia|now left].
  apply occ_free_occ in E. congruence.
Qed.

End ReFacts.

(** ** The sensitive-content filter *)
Module FilterFacts.
Import Py Re Filter ReFacts Examples.

Lemma remove_sensitive_info_passes text :
  exists p1 p2 p3,
    sensitive_keywords = [p1; p2; p3] /\
    wf_pattern p1 = true /\ wf_pattern p2 = true /\ wf_pattern p3 = true /\
    remove_sensitive_info text = sub p3 (sub p2 (sub p1 text)).
Proof. do 3 eexists. repeat split; reflexivity. Qed.

(** No keyword of the taxonomy is left as a whole word (or whole
    phrase), whatever its letter case. *)
Lemma no_keyword_left text k :
  In k (concat sensitive_keywords) -> occ k None (remove_sensitive_info text) = false.
Proof.
  destruct (remove_sensitive_info_passes text) as (p1 & p2 & p3 & E & W1 & W2 & W3 & ->).
  rewrite E. simpl concat. rewrite app_nil_r, !in_app_iff.
  intros [H|[H|H]].
  - apply sub_preserves; [exact W3|eauto using wf_pattern_In|].
    apply sub_preserves; [exact W2|eauto using wf_pattern_In|].
    now apply sub_complete.
  - apply sub_preserves; [exact W3|eauto using wf_pattern_In|].
    now apply sub_complete.
  - now apply sub_complete.
Qed.

(** C1, as stated, fails: the keyword "age" is still a substring of the
    filtered text of "page", which the filter returns unchanged. *)
Lemma C1_substring_survives :
  In "age" (concat sensitive_keywords) /\
  remove_sensitive_info "page" = "page" /\
  ci_contains "age" (remove_sensitive_info "page") = true.
Proof. repeat split. simpl. tauto. Qed.

(** C1, amended: for every input text, a case-insensitive [re.search]
    with any pattern of the filter's own list finds nothing in the
    output of [remove_sensitive_info]: no keyword of the taxonomy
    survives as a whole word. *)
Theorem C1_filter_complete (text : string) :
  existsb (fun pattern => search pattern (remove_sensitive_info text))
          sensitive_keywords = false.
Proof.
  apply not_true_is_false. intros H.
  apply existsb_exists in H as (pattern & Hin & Hs).
  apply search_go_occ in Hs as (k & Hk & Hocc).
  rewrite no_keyword_left in Hocc; [discriminate|].
  apply in_concat. eauto.
Qed.

(** C3, as stated, fails: the filter has no pattern for numbers, so "34"
    is still in the filtered scenario text. *)
Lemma C3_number_survives :
  contains "34" (remove_sensitive_info scenario) = true.
Proof. reflexivity. Qed.

(** C3, amended: on the scenario text the filter removes the words
    "male" and "age" and nothing else; the filtered text has no
    occurrence of "male", and it still has the number "34". *)
Theorem C3_scenario :
  remove_sensitive_info scenario
  = "John Doe, ,  34, worked at Acme Corp as Engineer. Skills: Java, Leadership."
  /\ contains "male" (remove_sensitive_info scenario) = false
  /\ ci_contains "age" (remove_sensitive_info scenario) = false
  /\ contains "34" (remove_sensitive_info scenario) = true.
Proof. repeat split. Qed.

End FilterFacts.

(** ** The entity extractor of [model2.py] *)
Module ExtractFacts.
Import Py Model2 Examples.

Lemma startswith_app p : forall s, startswith p s = true -> exists r, s = p ++ r.
Proof.
  induction p as [|a p IH]; intros s H; simpl in *.
  - now exists s.
  - destruct s as [|b s]; [discriminate|].
    apply andb_prop in H as [Hab H]. apply Ascii.eqb_eq in Hab. subst b.
    destruct (IH _ H) as [r ->]. now exists r.
Qed.

Lemma person_not_org e : is_person e = true -> startswith "B-ORG" (entity e) = false.
Proof.
  unfold is_person. intros H. apply orb_prop in H as [H|H];
    apply startswith_app in H as [r ->]; reflexivity.
Qed.

(** A person-tagged triple only extends [current_name]. *)
Lemma ner_step_person names orgs cur e :
  is_person e = true ->
  ner_step (names, orgs, cur) e = (names, orgs, (cur ++ [word e])%list).
Proof.
  intros H. unfold ner_step. now rewrite H, (person_not_org _ H).
Qed.

Lemma fold_person t : forall names orgs cur,
  Forall (fun e => is_person e = true) t ->
  fold_left ner_step t (names, orgs, cur) = (names, orgs, (cur ++ map word t)%list).
Proof.
  induction t as [|e t IH]; intros names orgs cur H.
  - simpl. now rewrite app_nil_r.
  - inversion H; subst.
    change (fold_left ner_step (e :: t) (names, orgs, cur))
      with (fold_left ner_step t (ner_step (names, orgs, cur) e)).
    rewrite ner_step_person by assumption.
    rewrite IH by assumption. simpl. now rewrite <- app_assoc.
Qed.

Lemma ner_loop_person_tail l t :
  Forall (fun e => is_person e = true) t ->
  ner_loop (l ++ t)
  = (fst (fst (ner_loop l)), snd (fst (ner_loop l)), (snd (ner_loop l) ++ map word t)%list).
Proof.
  intros H. unfold ner_loop. rewrite fold_left_app.
  destruct (fold_left ner_step l ([], [], [])) as [[names orgs] cur].
  now apply fold_person.
Qed.

Lemma set_list_nil set_list : set_order_ok set_list -> set_list [] = [].
Proof.
  intros H. destruct (H []) as [_ Hin].
  destruct (set_list []) as [|x l]; [reflexivity|].
  destruct (proj1 (Hin x)). now left.
Qed.

Lemma reverse_order_ok : set_order_ok reverse_order.
Proof.
  intros l. unfold reverse_order. split.
  - apply NoDup_rev, NoDup_nodup.
  - intros x. rewrite <- in_rev. apply nodup_In.
Qed.


Lemma name_of_build set_list ner sents :
  name (build_entities set_list ner sents) = firstn 1 (set_list (fst (fst (ner_loop ner)))).
Proof.
  unfold build_entities. destruct (ner_loop ner) as [[names orgs] cur].
  now destruct (sent_loop sents).
Qed.

Lemma organization_of_build set_list ner sents :
  organization (build_entities set_list ner sents) = set_list (snd (fst (ner_loop ner))).
Proof.
  unfold build_entities. destruct (ner_loop ner) as [[names orgs] cur].
  now destruct (sent_loop sents).
Qed.

(** The [name] category never holds more than one entry. *)
Lemma name_at_most_one set_list ner sents :
  length (name (build_entities set_list ner sents)) <= 1.
Proof. rewrite name_of_build. rewrite length_firstn. lia. Qed.

(** C4: the candidates are committed in text order, "Bob" first, but an
    admissible enumeration of [set(...)] hands back "Al", so the entry
    kept is not the first one detected. *)
Theorem C4_name_not_first_seen :
  set_order_ok reverse_order /\
  fst (fst (ner_loop two_people)) = ["Bob"; "Al"] /\
  name (build_entities reverse_order two_people []) = ["Al"].
Proof. split; [exact reverse_order_ok|]. split; reflexivity. Qed.

(** C5: only the token tagged [B-ORG] is kept; the continuation token
    "Corp" never reaches the [organization] category. *)
Theorem C5_organization_truncated :
  snd (fst (ner_loop acme_corp)) = ["Acme"] /\
  organization (build_entities reverse_order acme_corp []) = ["Acme"].
Proof. split; reflexivity. Qed.

(** C9: person-tagged triples at the end of the NER results commit
    nothing: the names committed, and so the [name] category, are those
    of the sequence without them, the trailing words stay in
    [current_name], and when every triple is person-tagged the [name]
    category is empty. *)
Theorem C9_trailing_person_dropped
    (set_list : list string -> list string) (l t : list ner_result)
    (sents : list string) :
  set_order_ok set_list ->
  Forall (fun e => is_person e = true) t ->
  fst (fst (ner_loop (l ++ t))) = fst (fst (ner_loop l)) /\
  snd (ner_loop (l ++ t)) = (snd (ner_loop l) ++ map word t)%list /\
  name (build_entities set_list (l ++ t) sents) = name (build_entities set_list l sents) /\
  name (build_entities set_list t sents) = [].
Proof.
  intros Hok Ht. pose proof (ner_loop_person_tail l t Ht) as E.
  repeat split.
  - now rewrite E.
  - now rewrite E.
  - rewrite !name_of_build. now rewrite E.
  - rewrite name_of_build. change t with ([] ++ t)%list.
    rewrite (ner_loop_person_tail [] t Ht). simpl.
    now rewrite set_list_nil.
Qed.

Lemma C9_witness :
  Forall (fun e => is_person e = true) john_doe /\
  name (build_entities reverse_order (two_people ++ john_doe) [])
  = name (build_entities reverse_order two_people []) /\
  name (build_entities reverse_order john_doe []) = [].
Proof.
  assert (H : Forall (fun e => is_person e = true) john_doe) by repeat constructor.
  split; [exact H|].
  pose proof (C9_trailing_person_dropped reverse_order two_people john_doe []
                reverse_order_ok H) as (_ & _ & H3 & H4).
  split; [exact H3|exact H4].
Defined.

End ExtractFacts.

(** ** The document reader *)
Module ReaderFacts.
Import Py Eff Examples.

Lemma fold_snoc (l : list string) : forall acc,
  fold_left (fun acc para => (acc ++ [para])%list) l acc = (acc ++ l)%list.
Proof.
  induction l as [|x l IH]; intros acc; simpl.
  - now rewrite app_nil_r.
  - rewrite IH, <- app_assoc. reflexivity.
Qed.

Lemma contains_cons p c s : contains p (String c s) = false -> contains p s = false.
Proof. simpl. intros H. now apply orb_false_elim in H as [_ H]. Qed.

Lemma split_line c : forall x r,
  contains (String c "") x = false ->
  split c (x ++ String c r) = x :: split c r.
Proof.
  induction x as [|d x IH]; intros r H.
  - simpl. now rewrite Ascii.eqb_refl.
  - pose proof (contains_cons _ _ _ H) as Hx.
    simpl in H. apply orb_false_elim in H as [Hd _].
    assert (Hdc : Ascii.eqb d c = false).
    { rewrite Ascii.eqb_sym. destruct (Ascii.eqb c d); [|reflexivity].
      destruct x; discriminate. }
    simpl. rewrite Hdc, (IH r Hx). reflexivity.
Qed.

Lemma split_last c : forall x,
  contains (String c "") x = false -> split c x = [x].
Proof.
  induction x as [|d x IH]; intros H; [reflexivity|].
  pose proof (contains_cons _ _ _ H) as Hx.
  simpl in H. apply orb_false_elim in H as [Hd _].
  assert (Hdc : Ascii.eqb d c = false).
  { rewrite Ascii.eqb_sym. destruct (Ascii.eqb c d); [|reflexivity].
    destruct x; discriminate. }
  simpl. rewrite Hdc, (IH Hx). reflexivity.
Qed.

(** Splitting the text of the reader at the line breaks gives the
    paragraphs back, in order. *)
Lemma split_join c : forall paragraphs,
  paragraphs <> [] ->
  Forall (fun para => contains (String c "") para = false) paragraphs ->
  split c (join (String c "") paragraphs) = paragraphs.
Proof.
  induction paragraphs as [|x l IH]; intros Hne H; [congruence|].
  inversion H as [|? ? Hx Hl]; subst.
  destruct l as [|y l].
  - simpl. now apply split_last.
  - change (join (String c "") (x :: y :: l))
      with (x ++ String c (join (String c "") (y :: l))).
    rewrite split_line by exact Hx. f_equal. apply IH; [discriminate|exact Hl].
Qed.

(** C6: whatever the container, both readers return the paragraph texts
    joined by line breaks in document order and change nothing else: the
    two paragraphs "Alice Smith" and "Skills: Python, SQL" come out as
    those two lines, paragraphs without line breaks can be read back
    from the text one by one, and a document without paragraphs gives
    the empty text and no error. *)
Theorem C6_reader_round_trip
    (docx_path : string -> result (list string))
    (docx_bytes : list Byte.byte -> result (list string))
    (file_path : string) (buffer : list Byte.byte) (paragraphs : list string)
    (log : list Model2.event) (w : App.world) :
  docx_path file_path = Ok paragraphs ->
  docx_bytes buffer = Ok paragraphs ->
  Model2.read_docx docx_path file_path log = (Ok (join nl paragraphs), log) /\
  App.read_docx_from_bytes docx_bytes buffer w = (Ok (join nl paragraphs), w) /\
  (paragraphs = alice ->
     join nl paragraphs = "Alice Smith" ++ nl ++ "Skills: Python, SQL" /\
     split (ascii_of_nat 10) (join nl paragraphs) = ["Alice Smith"; "Skills: Python, SQL"]) /\
  (paragraphs = [] -> join nl paragraphs = "") /\
  (paragraphs <> [] ->
   Forall (fun para => contains nl para = false) paragraphs ->
   split (ascii_of_nat 10) (join nl paragraphs) = paragraphs).
Proof.
  intros Hp Hb. repeat split.
  - unfold Model2.read_docx, bind, lift, ret. rewrite Hp, fold_snoc. reflexivity.
  - unfold App.read_docx_from_bytes, try_except, bind, lift, ret.
    rewrite Hb, fold_snoc. reflexivity.
  - subst. reflexivity.
  - subst. reflexivity.
  - intros ->. reflexivity.
  - apply split_join.
Qed.

Lemma C6_witness :
  Model2.read_docx (docx_of alice) "cv.docx" [] = (Ok (join nl alice), []) /\
  App.read_docx_from_bytes (docx_of alice) [Byte.x50; Byte.x4b] loaded = (Ok (join nl alice), loaded) /\
  split (ascii_of_nat 10) (join nl alice) = alice.
Proof.
  pose proof (C6_reader_round_trip (docx_of alice) (docx_of alice)
                "cv.docx" [Byte.x50; Byte.x4b] alice [] loaded eq_refl eq_refl)
    as (H1 & H2 & _ & _ & H5).
  split; [exact H1|]. split; [exact H2|].
  apply H5; [discriminate|repeat constructor].
Defined.

End ReaderFacts.

(** ** The report synthesizer and the view function of [app.py] *)
Module AppFacts.
Import Py Eff App Examples.

Section Server.

Variable docx_Document : list Byte.byte -> result (list string).
Variable b64decode : string -> result (list Byte.byte).
Variable apply_chat_template : list message -> result string.
Variable tokenizer_call : string -> result (list nat).
Variable model_generate : list App.event -> list nat -> result (list nat).
Variable batch_decode : list nat -> result string.
Variable eos_token : string.

Let generation :=
  generation apply_chat_template tokenizer_call model_generate batch_decode eos_token.
Let generate_llama_report :=
  generate_llama_report apply_chat_template tokenizer_call model_generate
    batch_decode eos_token.
Let process_resume :=
  process_resume docx_Document b64decode apply_chat_template tokenizer_call
    model_generate batch_decode eos_token.

Lemma report_not_loaded text w :
  model_loaded w = false -> generate_llama_report text w = (Raise not_ready, w).
Proof.
  intros H. unfold generate_llama_report, App.generate_llama_report, bind,
    get_model_loaded, raise. now rewrite H.
Qed.

Lemma report_loaded text w :
  model_loaded w = true ->
  generate_llama_report text w =
    match generation text w with
    | (Ok r, w') => (Ok r, w')
    | (Raise e, w') =>
        (Raise (wrapped e), logged ("Error during LLaMA generation: " ++ str_of e) w')
    end.
Proof.
  intros H. unfold generate_llama_report, App.generate_llama_report, bind,
    get_model_loaded, try_except. rewrite H. simpl.
  fold generation. destruct (generation text w) as [[r|e] w']; reflexivity.
Qed.

(** The first thing the generation does is to hand the messages, with
    the text it was given inside, to the tokenizer's chat template. *)
Lemma generation_trace text w :
  exists rest,
    trace (snd (generation text w))
    = (trace w ++ CallChatTemplate (messages_for text) :: rest)%list
    /\ model_loaded (snd (generation text w)) = model_loaded w.
Proof.
  unfold generation, App.generation, call, bind, emit, lift, ret, calls_so_far. simpl.
  destruct (apply_chat_template (messages_for text)) as [input_text|e]; simpl;
    [|eexists; split; reflexivity].
  destruct (tokenizer_call input_text) as [input_ids|e]; simpl;
    [|eexists; rewrite <- app_assoc; split; reflexivity].
  destruct (model_generate _ input_ids) as [generated_ids|e]; simpl;
    [|eexists; rewrite <- !app_assoc; split; reflexivity].
  destruct (batch_decode _) as [report|e]; simpl;
    eexists; rewrite <- !app_assoc; split; reflexivity.
Qed.

Lemma report_trace text w :
  model_loaded w = true ->
  exists rest,
    trace (snd (generate_llama_report text w))
    = (trace w ++ CallChatTemplate (messages_for text) :: rest)%list.
Proof.
  intros H. rewrite (report_loaded text w H).
  destruct (generation_trace text w) as (rest & Ht & _).
  destruct (generation text w) as [[r|e] w']; simpl in *.
  - now exists rest.
  - rewrite Ht, <- app_assoc. simpl. eexists; reflexivity.
Qed.

(** C7: the synthesizer raises the model-not-ready error exactly when
    [model_loaded] is false, and then nothing is called and nothing
    logged; with the model loaded, an exception of the generation is
    re-raised as "Failed to generate report: ..." with the message and
    the exception itself kept as its cause, and a report is returned
    only when the whole generation returned it. *)
Theorem C7_model_readiness (text : string) (w : world) :
  (model_loaded w = false ->
     generate_llama_report text w = (Raise not_ready, w)) /\
  (forall e w', model_loaded w = true -> generation text w = (Raise e, w') ->
     generate_llama_report text w
     = (Raise (wrapped e), logged ("Error during LLaMA generation: " ++ str_of e) w')
     /\ context_of (wrapped e) = Some e) /\
  (forall r w', generate_llama_report text w = (Ok r, w') ->
     model_loaded w = true /\ generation text w = (Ok r, w')) /\
  ((exists w', generate_llama_report text w = (Raise not_ready, w'))
     <-> model_loaded w = false).
Proof.
  split; [apply report_not_loaded|]. split; [|split].
  - intros e w' Hl Hg. split; [|reflexivity].
    now rewrite (report_loaded text w Hl), Hg.
  - intros r w' H. destruct (model_loaded w) eqn:Hl.
    + split; [reflexivity|]. rewrite (report_loaded text w Hl) in H.
      destruct (generation text w) as [[r0|e] w0]; [exact H|discriminate].
    + rewrite (report_not_loaded text w Hl) in H. discriminate.
  - split.
    + intros [w' H]. destruct (model_loaded w) eqn:Hl; [|reflexivity].
      rewrite (report_loaded text w Hl) in H.
      destruct (generation text w) as [[r0|e] w0]; discriminate.
    + intros Hl. exists w. now apply report_not_loaded.
Qed.

(** C10, amended: with file content and no [fileName] key, the call
    [file_name.endswith] on [None] raises an [AttributeError] in front of
    the [try] block, so no handler of the view function catches it: the
    exception leaves [process_resume] and no response is built. *)
Theorem C10_missing_file_name (req : request) (m : gmap string json) (w : world) :
  is_json req = true ->
  get_json req = Ok (JObj m) ->
  truthy (default JNull (m !! "fileContent")) = true ->
  m !! "fileName" = None ->
  process_resume req w
  = (Raise (Exn AttributeError "'NoneType' object has no attribute 'endswith'" None), w).
Proof.
  intros Hj Hd Hc Hf.
  unfold process_resume, App.process_resume, bind, lift, data_get, ret.
  rewrite Hj, Hd, Hf, Hc. reflexivity.
Qed.

(** With a valid request and the model loaded, the messages given to the
    chat template are built from the text of the reader as it is. *)
Lemma process_resume_trace (req : request) (m : gmap string json)
    (content file_name : string) (buffer : list Byte.byte) (paragraphs : list string)
    (w : world) :
  is_json req = true ->
  get_json req = Ok (JObj m) ->
  m !! "fileContent" = Some (JStr content) -> content <> "" ->
  m !! "fileName" = Some (JStr file_name) -> endswith ".docx" file_name = true ->
  b64decode content = Ok buffer ->
  docx_Document buffer = Ok paragraphs ->
  model_loaded w = true ->
  exists rest,
    trace (snd (process_resume req w))
    = (trace w ++ CallChatTemplate (messages_for (join nl paragraphs)) :: rest)%list.
Proof.
  intros Hj Hd Hc Hne Hf He Hb Hp Hl.
  unfold process_resume, App.process_resume, bind, lift, data_get, json_endswith, ret.
  rewrite Hj, Hd, Hc, Hf. simpl.
  assert (Ht : (content =? "")%string = false) by now apply String.eqb_neq.
  rewrite Ht, He. simpl.
  unfold try_except at 1. unfold bind, json_b64decode, lift. rewrite Hb.
  unfold read_docx_from_bytes, try_except, bind, lift, ret.
  rewrite Hp, ReaderFacts.fold_snoc. simpl.
  fold generate_llama_report.
  destruct (report_trace (join nl paragraphs) w Hl) as [rest Hr].
  destruct (generate_llama_report (join nl paragraphs) w) as [[r|e] w'];
    simpl in Hr |- *; [now exists rest|].
  destruct (cls_of e); simpl; try (now exists rest);
    rewrite Hr, <- app_assoc; simpl; eexists; reflexivity.
Qed.

End Server.

Lemma oblivious_ret {A : Type} (a : A) : oblivious (ret a).
Proof. intros w1 w2 H. now split. Qed.

Lemma oblivious_raise {A : Type} (e : exn) : oblivious (@raise world A e).
Proof. intros w1 w2 H. now split. Qed.

Lemma oblivious_lift {A : Type} (r : result A) : oblivious (lift r).
Proof. intros w1 w2 H. now split. Qed.

Lemma oblivious_emit (ev : event) : oblivious (emit ev).
Proof. intros w1 w2 H. now split. Qed.

Lemma oblivious_loaded : oblivious get_model_loaded.
Proof. intros w1 w2 H. split; [simpl; now rewrite H|reflexivity]. Qed.

Lemma oblivious_bind {A B : Type} (m : M world A) (k : A -> M world B) :
  oblivious m -> (forall a, oblivious (k a)) -> oblivious (bind m k).
Proof.
  intros Hm Hk w1 w2 H. unfold bind. destruct (Hm w1 w2 H) as [H1 H2].
  destruct (Hm w2 w1 (eq_sym H)) as [_ H3].
  destruct (m w1) as [[a1|e1] v1], (m w2) as [[a2|e2] v2]; simpl in *;
    try discriminate.
  - inversion H1; subst.
    destruct (Hk a2 v1 v2) as [H4 H5]; [congruence|]. split; congruence.
  - inversion H1; subst. split; [reflexivity|assumption].
Qed.

Lemma oblivious_try {A : Type} (m : M world A) (h : exn -> M world A) :
  oblivious m -> (forall e, oblivious (h e)) -> oblivious (try_except m h).
Proof.
  intros Hm Hh w1 w2 H. unfold try_except. destruct (Hm w1 w2 H) as [H1 H2].
  destruct (Hm w2 w1 (eq_sym H)) as [_ H3].
  destruct (m w1) as [[a1|e1] v1], (m w2) as [[a2|e2] v2]; simpl in *;
    try discriminate.
  - split; assumption.
  - inversion H1; subst.
    destruct (Hh e2 v1 v2) as [H4 H5]; [congruence|]. split; congruence.
Qed.

Create HintDb oblivious.

#[local] Hint Resolve oblivious_ret oblivious_raise oblivious_lift oblivious_emit
  oblivious_loaded : oblivious.

Ltac oblivious :=
  repeat first
    [ apply oblivious_bind; [|intros ?]
    | apply oblivious_try; [|intros ?]
    | solve [auto with oblivious] ].

Section Stateless.

Variable docx_Document : list Byte.byte -> result (list string).
Variable b64decode : string -> result (list Byte.byte).
Variable apply_chat_template : list message -> result string.
Variable tokenizer_call : string -> result (list nat).
Variable model_generate : list App.event -> list nat -> result (list nat).
Variable batch_decode : list nat -> result string.
Variable eos_token : string.

(** The generation configuration is deterministic: what the model
    returns does not depend on the state of the sampler. *)
Hypothesis deterministic :
  forall drawn1 drawn2 ids, model_generate drawn1 ids = model_generate drawn2 ids.




End Stateless.

Lemma C7_witness :
  generate_llama_report chat tok gen_fail decode "</s>" "Skills: SQL" loaded
  = (Raise (wrapped out_of_memory),
     logged "Error during LLaMA generation: out of memory"
       (snd (generation chat tok gen_fail decode "</s>" "Skills: SQL" loaded)))
  /\ generate_llama_report chat tok gen_fail decode "</s>" "Skills: SQL" not_loaded
     = (Raise not_ready, not_loaded).
Proof.
  pose proof (C7_model_readiness chat tok gen_fail decode "</s>" "Skills: SQL" loaded)
    as (_ & H2 & _).
  pose proof (C7_model_readiness chat tok gen_fail decode "</s>" "Skills: SQL" not_loaded)
    as (H1 & _).
  split.
  - apply (H2 out_of_memory _ eq_refl). reflexivity.
  - apply H1. reflexivity.
Defined.

(** C10, as stated, fails: the caller does not get the 500 response of
    the generic handler; the view function returns no response. *)
Lemma C10_no_handler_runs :
  fst (process_resume (docx_of alice) b64_any chat tok gen_ok decode "</s>"
         no_file_name loaded)
  <> Ok (error_response "An unexpected error occurred on the server." 500).
Proof.
  unfold process_resume, no_file_name, bind, lift, data_get, ret. simpl.
  rewrite lookup_singleton_eq, lookup_singleton_ne by discriminate. simpl.
  discriminate.
Qed.

Lemma C10_witness :
  process_resume (docx_of alice) b64_any chat tok gen_ok decode "</s>"
    no_file_name loaded
  = (Raise (Exn AttributeError "'NoneType' object has no attribute 'endswith'" None),
     loaded).
Proof.
  apply (C10_missing_file_name (docx_of alice) b64_any chat tok gen_ok decode "</s>"
           no_file_name {[ "fileContent" := JStr "bWFsZQ==" ]} loaded).
  - reflexivity.
  - reflexivity.
  - rewrite lookup_singleton_eq. reflexivity.
  - apply lookup_singleton_ne. discriminate.
Defined.

End AppFacts.

(** ** The order of filter and models in the two orchestrators *)
Module PipelineFacts.
Import Py Eff Filter Examples Parts.

Section Orchestrators.

Variable docx_path : string -> result (list string).
Variable ner_pipeline : string -> result (list Model2.ner_result).
Variable nlp_sents : string -> result (list string).
Variable generator : list Model2.event -> string -> result string.

Variable docx_bytes : list Byte.byte -> result (list string).
Variable b64decode : string -> result (list Byte.byte).
Variable apply_chat_template : list App.message -> result string.
Variable tokenizer_call : string -> result (list nat).
Variable model_generate : list App.event -> list nat -> result (list nat).
Variable batch_decode : list nat -> result string.
Variable eos_token : string.

(** The full mode, step by step: where it can stop and what it has
    called by then. *)
Lemma full_mode_steps (set_list : list string -> list string)
    (write_file : string -> string -> result unit)
    file_path output_path log :
  Model2.process_resume docx_path ner_pipeline nlp_sents generator set_list write_file
    file_path output_path log
  = match docx_path file_path with
    | Raise e => (Raise e, log)
    | Ok paragraphs =>
        let cleaned := remove_sensitive_info (join nl paragraphs) in
        match ner_pipeline cleaned with
        | Raise e => (Raise e, (log ++ [Model2.CallNer cleaned])%list)
        | Ok ner_results =>
            match nlp_sents cleaned with
            | Raise e =>
                (Raise e, (log ++ [Model2.CallNer cleaned; Model2.CallNlp cleaned])%list)
            | Ok sents =>
                let prompt :=
                  Model2.report_prompt (Model2.build_entities set_list ner_results sents) in
                match generator (log ++ [Model2.CallNer cleaned; Model2.CallNlp cleaned])%list
                        prompt with
                | Raise e =>
                    (Raise e,
                     (log ++ [Model2.CallNer cleaned; Model2.CallNlp cleaned;
                              Model2.CallGenerator prompt])%list)
                | Ok report =>
                    match write_file output_path report with
                    | Raise e =>
                        (Raise e,
                         (log ++ [Model2.CallNer cleaned; Model2.CallNlp cleaned;
                                  Model2.CallGenerator prompt])%list)
                    | Ok _ =>
                        (Ok report,
                         (log ++ [Model2.CallNer cleaned; Model2.CallNlp cleaned;
                                  Model2.CallGenerator prompt;
                                  Model2.WriteFile output_path report])%list)
                    end
                end
            end
        end
    end.
Proof.
  unfold Model2.process_resume, Model2.read_docx, Model2.extract_entities,
    Model2.generate_report, Model2.emit, Model2.calls_so_far, bind, lift, ret.
  destruct (docx_path file_path) as [paragraphs|e]; [|reflexivity].
  rewrite ReaderFacts.fold_snoc. simpl.
  destruct (ner_pipeline _) as [ner_results|e]; [|reflexivity].
  destruct (nlp_sents _) as [sents|e]; simpl; rewrite <- !app_assoc; simpl;
    [|reflexivity].
  destruct (generator _ _) as [report|e]; simpl; rewrite <- ?app_assoc; simpl;
    [|reflexivity].
  destruct (write_file output_path report) as [u|e]; simpl; rewrite <- ?app_assoc;
    reflexivity.
Qed.

(** C2, amended: in the full mode ([model2.py]) the text of the reader
    goes through the filter first: the entity classifier is called on
    the filtered text, and whatever else is called afterwards is the
    sentence splitter on the same filtered text and the generator on the
    prompt built from their answers; when every step succeeds these are
    exactly the calls made, followed by the writing of the report.  In
    the lighter mode ([app.py]) there is no filter: with a valid request
    and the model loaded, the generation model is given the messages
    built from the text of the reader as it is. *)
Theorem C2_filter_before_models_in_full_mode
    (set_list : list string -> list string)
    (write_file : string -> string -> result unit)
    (file_path output_path : string) (paragraphs : list string)
    (log : list Model2.event)
    (req : App.request) (m : gmap string App.json)
    (content file_name : string) (buffer : list Byte.byte) (w : App.world) :
  docx_path file_path = Ok paragraphs ->
  App.is_json req = true ->
  App.get_json req = Ok (App.JObj m) ->
  m !! "fileContent" = Some (App.JStr content) -> content <> "" ->
  m !! "fileName" = Some (App.JStr file_name) -> endswith ".docx" file_name = true ->
  b64decode content = Ok buffer ->
  docx_bytes buffer = Ok paragraphs ->
  App.model_loaded w = true ->
  let cleaned := remove_sensitive_info (join nl paragraphs) in
  let full := Model2.process_resume docx_path ner_pipeline nlp_sents generator set_list
                write_file file_path output_path log in
  (exists rest,
     snd full = (log ++ Model2.CallNer cleaned :: rest)%list /\
     Forall (fed_filtered ner_pipeline nlp_sents set_list cleaned) rest)
  /\ (forall ner_results sents report u,
        ner_pipeline cleaned = Ok ner_results ->
        nlp_sents cleaned = Ok sents ->
        let prompt :=
          Model2.report_prompt (Model2.build_entities set_list ner_results sents) in
        generator (log ++ [Model2.CallNer cleaned; Model2.CallNlp cleaned])%list prompt
        = Ok report ->
        write_file output_path report = Ok u ->
        full = (Ok report,
                (log ++ [Model2.CallNer cleaned; Model2.CallNlp cleaned;
                         Model2.CallGenerator prompt;
                         Model2.WriteFile output_path report])%list))
  /\ exists rest,
       App.trace (snd (App.process_resume docx_bytes b64decode apply_chat_template
                         tokenizer_call model_generate batch_decode eos_token req w))
       = (App.trace w
          ++ App.CallChatTemplate (App.messages_for (join nl paragraphs)) :: rest)%list.
Proof.
  intros Hp Hj Hd Hc Hne Hf He Hb Hq Hl cleaned full.
  assert (Hfull : full
    = match ner_pipeline cleaned with
      | Raise e => (Raise e, (log ++ [Model2.CallNer cleaned])%list)
      | Ok ner_results =>
          match nlp_sents cleaned with
          | Raise e =>
              (Raise e, (log ++ [Model2.CallNer cleaned; Model2.CallNlp cleaned])%list)
          | Ok sents =>
              let prompt :=
                Model2.report_prompt (Model2.build_entities set_list ner_results sents) in
              match generator (log ++ [Model2.CallNer cleaned; Model2.CallNlp cleaned])%list
                      prompt with
              | Raise e =>
                  (Raise e,
                   (log ++ [Model2.CallNer cleaned; Model2.CallNlp cleaned;
                            Model2.CallGenerator prompt])%list)
              | Ok report =>
                  match write_file output_path report with
                  | Raise e =>
                      (Raise e,
                       (log ++ [Model2.CallNer cleaned; Model2.CallNlp cleaned;
                                Model2.CallGenerator prompt])%list)
                  | Ok _ =>
                      (Ok report,
                       (log ++ [Model2.CallNer cleaned; Model2.CallNlp cleaned;
                                Model2.CallGenerator prompt;
                                Model2.WriteFile output_path report])%list)
                  end
              end
          end
      end).
  { unfold full. rewrite full_mode_steps, Hp. reflexivity. }
  split; [|split].
  - rewrite Hfull.
    destruct (ner_pipeline cleaned) as [ner_results|e] eqn:Hn;
      [|exists []; split; [reflexivity|constructor]].
    destruct (nlp_sents cleaned) as [sents|e] eqn:Hs;
      [|eexists; split; [reflexivity|repeat constructor]].
    assert (Hg : fed_filtered ner_pipeline nlp_sents set_list cleaned
                   (Model2.CallGenerator
                      (Model2.report_prompt
                         (Model2.build_entities set_list ner_results sents)))).
    { exists ner_results, sents. now repeat split. }
    cbv zeta.
    destruct (generator _ _) as [report|e];
      [|eexists; split; [reflexivity|repeat constructor; exact Hg]].
    destruct (write_file output_path report) as [u|e];
      eexists; (split; [reflexivity|repeat constructor; exact Hg]).
  - intros ner_results sents report u Hn Hs prompt Hg Hw.
    rewrite Hfull, Hn, Hs. cbv zeta. fold prompt. now rewrite Hg, Hw.
  - eapply AppFacts.process_resume_trace; eauto.
Qed.





End Orchestrators.

Lemma good_request_content :
  (<[ "fileName" := App.JStr "cv.docx" ]>
     ({[ "fileContent" := App.JStr "bWFsZQ==" ]} : gmap string App.json))
    !! "fileContent" = Some (App.JStr "bWFsZQ==").
Proof.
  rewrite lookup_insert_ne by discriminate. apply lookup_singleton_eq.
Qed.

Lemma good_request_name :
  (<[ "fileName" := App.JStr "cv.docx" ]>
     ({[ "fileContent" := App.JStr "bWFsZQ==" ]} : gmap string App.json))
    !! "fileName" = Some (App.JStr "cv.docx").
Proof. apply lookup_insert_eq. Qed.

(** C2, as stated, fails in the lighter mode: for a document whose only
    paragraph is "male" the filter would leave nothing, yet the first
    call of the server hands the chat template the messages built from
    "male", and the word is in the prompt. *)
Lemma C2_lighter_mode_unfiltered :
  remove_sensitive_info (join nl one_word) = "" /\
  hd_error (App.trace (snd (App.process_resume (docx_of one_word) b64_any chat tok
                              gen_ok decode "</s>" good_request loaded)))
  = Some (App.CallChatTemplate (App.messages_for "male")) /\
  contains "male" (App.user_content "male") = true /\
  App.messages_for "male" <> App.messages_for (remove_sensitive_info (join nl one_word)).
Proof.
  split; [reflexivity|]. split; [|split; [reflexivity|discriminate]].
  destruct (AppFacts.process_resume_trace (docx_of one_word) b64_any chat tok gen_ok
              decode "</s>" good_request _ "bWFsZQ==" "cv.docx" [] one_word loaded
              eq_refl eq_refl good_request_content ltac:(discriminate)
              good_request_name eq_refl eq_refl eq_refl eq_refl) as [rest ->].
  reflexivity.
Qed.

Lemma C2_witness :
  (exists rest,
     snd (Model2.process_resume (docx_of one_word) no_entities one_sentence echo
            Model2.reverse_order write_ok "cv.docx" "candidate_report.txt" [])
     = ([] ++ Model2.CallNer "" :: rest)%list /\
     Forall (fed_filtered no_entities one_sentence Model2.reverse_order "") rest)
  /\ exists rest,
       App.trace (snd (App.process_resume (docx_of one_word) b64_any chat tok gen_ok
                         decode "</s>" good_request loaded))
       = App.CallChatTemplate (App.messages_for "male") :: rest.
Proof.
  pose proof (C2_filter_before_models_in_full_mode
                (docx_of one_word) no_entities one_sentence echo
                (docx_of one_word) b64_any chat tok gen_ok decode "</s>"
                Model2.reverse_order write_ok "cv.docx" "candidate_report.txt" one_word []
                good_request _ "bWFsZQ==" "cv.docx" [] loaded
                eq_refl eq_refl eq_refl good_request_content ltac:(discriminate)
                good_request_name eq_refl eq_refl eq_refl eq_refl) as (H1 & _ & H3).
  split; [exact H1|exact H3].
Defined.




End PipelineFacts.

(** ** More on the filter: what it keeps and what it cannot do *)
Module FilterMore.
Import Py Re Filter ReFacts Examples.

Lemma length_chars s : length (list_ascii_of_string s) = String.length s.
Proof. induction s as [|c s IH]; simpl; [reflexivity|now rewrite IH]. Qed.

(** One pass only deletes characters. *)
Lemma sub_go_sublist alts : forall s prev skip,
  sublist (list_ascii_of_string (sub_go alts prev skip s)) (list_ascii_of_string s).
Proof.
  induction s as [|c r IH]; intros prev skip; simpl.
  - constructor.
  - destruct skip as [|n].
    + destruct (first_match alts prev (String c r)) as [[|n]|]; simpl.
      * apply sublist_skip, IH.
      * apply sublist_cons, IH.
      * apply sublist_skip, IH.
    + apply sublist_cons, IH.
Qed.

Lemma fold_sub_sublist (patterns : list pattern) : forall text,
  sublist (list_ascii_of_string (fold_left (fun t p => sub p t) patterns text))
          (list_ascii_of_string text).
Proof.
  induction patterns as [|p ps IH]; intros text; simpl.
  - reflexivity.
  - etrans; [apply IH|]. apply sub_go_sublist.
Qed.

(** X1: the filter only deletes: the characters of the filtered text
    are characters of the input, in the same order, with nothing put in
    the place of what was removed; so the text never gets longer. *)
Theorem X1_filter_only_deletes (text : string) :
  sublist (list_ascii_of_string (remove_sensitive_info text))
          (list_ascii_of_string text)
  /\ String.length (remove_sensitive_info text) <= String.length text.
Proof.
  assert (H : sublist (list_ascii_of_string (remove_sensitive_info text))
                      (list_ascii_of_string text))
    by apply fold_sub_sublist.
  split; [exact H|]. apply sublist_length in H. now rewrite !length_chars in H.
Qed.

(** Where the pattern matches nowhere, the pass changes nothing. *)
Lemma sub_go_clean alts : forall s prev,
  search_go alts prev s = false -> sub_go alts prev 0 s = s.
Proof.
  induction s as [|c r IH]; intros prev H; [reflexivity|].
  simpl in H. destruct (first_match alts prev (String c r)) eqn:F; [discriminate|].
  rewrite sub_go_nomatch by exact F. now rewrite IH.
Qed.

Lemma fold_sub_clean (patterns : list pattern) (text : string) :
  existsb (fun p => search p text) patterns = false ->
  fold_left (fun t p => sub p t) patterns text = text.
Proof.
  induction patterns as [|p ps IH]; simpl; [reflexivity|].
  intros H. apply orb_false_elim in H as [Hp Hps].
  unfold sub at 2. rewrite (sub_go_clean p text None Hp). now apply IH.
Qed.

(** X2: a text in which no pattern of the taxonomy matches comes out of
    the filter unchanged. *)
Theorem X2_clean_text_unchanged (text : string) :
  existsb (fun pattern => search pattern text) sensitive_keywords = false ->
  remove_sensitive_info text = text.
Proof. apply fold_sub_clean. Qed.

Lemma X2_witness :
  remove_sensitive_info "Skills: Java, Leadership." = "Skills: Java, Leadership.".
Proof. apply X2_clean_text_unchanged. reflexivity. Defined.

Lemma filtered_is_clean text :
  existsb (fun pattern => search pattern (remove_sensitive_info text))
          sensitive_keywords = false.
Proof.
  apply not_true_is_false. intros H.
  apply existsb_exists in H as (pattern & Hin & Hs).
  apply search_go_occ in Hs as (k & Hk & Hocc).
  rewrite FilterFacts.no_keyword_left in Hocc; [discriminate|].
  apply in_concat. eauto.
Qed.

(** X3: filtering twice is filtering once: a second run of the filter
    over its own output finds nothing more to remove. *)
Theorem X3_filter_idempotent (text : string) :
  remove_sensitive_info (remove_sensitive_info text) = remove_sensitive_info text.
Proof. apply fold_sub_clean, filtered_is_clean. Qed.

Lemma lower_idem c : lower (lower c) = lower c.
Proof. destruct c as [[] [] [] [] [] [] [] []]; vm_compute; reflexivity. Qed.

Lemma ci_eqb_lower x c : ci_eqb x (lower c) = ci_eqb x c.
Proof. unfold ci_eqb. now rewrite lower_idem. Qed.

Lemma word_opt_lower p : word_opt (option_map lower p) = word_opt p.
Proof. destruct p; simpl; [apply lower_word|reflexivity]. Qed.

Lemma hd_lower s : hd (str_lower s) = option_map lower (hd s).
Proof. now destruct s. Qed.

Lemma bdry_lower p q : bdry (option_map lower p) (option_map lower q) = bdry p q.
Proof. unfold bdry. now rewrite !word_opt_lower. Qed.

Lemma lit_ci_lower k : forall prev s,
  lit_ci k (option_map lower prev) (str_lower s)
  = match lit_ci k prev s with
    | Some (p, r) => Some (option_map lower p, str_lower r)
    | None => None
    end.
Proof.
  induction k as [|x k IH]; intros prev s; simpl; [reflexivity|].
  destruct s as [|c s]; simpl; [reflexivity|].
  rewrite ci_eqb_lower. destruct (ci_eqb x c); [|reflexivity].
  apply (IH (Some c)).
Qed.

Lemma alt_match_lower k prev s :
  alt_match k (option_map lower prev) (str_lower s) = alt_match k prev s.
Proof.
  unfold alt_match. rewrite hd_lower, bdry_lower, lit_ci_lower.
  destruct (bdry prev (hd s)); [|reflexivity].
  destruct (lit_ci k prev s) as [[p r]|]; [|reflexivity].
  now rewrite hd_lower, bdry_lower.
Qed.

Lemma first_match_lower alts prev s :
  first_match alts (option_map lower prev) (str_lower s) = first_match alts prev s.
Proof.
  induction alts as [|k alts IH]; simpl; [reflexivity|].
  now rewrite alt_match_lower, IH.
Qed.

Lemma sub_go_lower alts : forall s prev skip,
  sub_go alts (option_map lower prev) skip (str_lower s)
  = str_lower (sub_go alts prev skip s).
Proof.
  induction s as [|c r IH]; intros prev skip; [reflexivity|].
  destruct skip as [|n].
  - change (str_lower (String c r)) with (String (lower c) (str_lower r)).
    simpl sub_go.
    change (String (lower c) (str_lower r)) with (str_lower (String c r)).
    rewrite first_match_lower.
    destruct (first_match alts prev (String c r)) as [[|n]|]; simpl;
      now rewrite <- (IH (Some c)).
  - simpl. apply (IH (Some c)).
Qed.

Lemma fold_sub_lower (patterns : list pattern) : forall text,
  fold_left (fun t p => sub p t) patterns (str_lower text)
  = str_lower (fold_left (fun t p => sub p t) patterns text).
Proof.
  induction patterns as [|p ps IH]; intros text; simpl; [reflexivity|].
  rewrite <- IH. f_equal. exact (sub_go_lower p text None 0).
Qed.

(** X4: for a text of code points below 256 (ASCII and Latin-1, the
    alphabet of [string]), letter case has no part in what is removed:
    filtering the lower-cased text gives the lower-cased filtered text.
    Beyond that alphabet [str.lower] can change the number of characters
    and the equation is not claimed. *)
Theorem X4_filter_ignores_case (text : string) :
  remove_sensitive_info (str_lower text) = str_lower (remove_sensitive_info text).
Proof. apply fold_sub_lower. Qed.

End FilterMore.

(** ** More on the entity extractor and the prompt of [model2.py] *)
Module ExtractMore.
Import Py Model2 Examples ExtractFacts Parts.

Lemma ner_step_other names orgs cur e :
  is_person e = false ->
  ner_step (names, orgs, cur) e
  = (match cur with
     | _ :: _ => (names ++ [merged cur])%list
     | [] => names
     end,
     if is_org e then (orgs ++ [replace " ##" "" (word e)])%list else orgs,
     []).
Proof.
  intros H. unfold ner_step, is_org. rewrite H. now destruct cur.
Qed.

Lemma skills_of_build set_list ner sents :
  skills (build_entities set_list ner sents) = set_list (snd (sent_loop sents)).
Proof.
  unfold build_entities. destruct (ner_loop ner) as [[names orgs] cur].
  now destruct (sent_loop sents).
Qed.

Lemma education_of_build set_list ner sents :
  education (build_entities set_list ner sents) = set_list (fst (sent_loop sents)).
Proof.
  unfold build_entities. destruct (ner_loop ner) as [[names orgs] cur].
  now destruct (sent_loop sents).
Qed.

Lemma NoDup_first (l : list string) : List.NoDup (firstn 1 l).
Proof.
  destruct l as [|x l]; simpl; constructor; [intros []|constructor].
Qed.

(** X5: with any enumeration of the sets, every category of the result
    is free of duplicates; [organization], [skills] and [education] hold
    exactly the candidates collected for them, and the entry of [name],
    if there is one, is one of the committed names. *)
Theorem X5_categories_deduplicated
    (set_list : list string -> list string)
    (ner_results : list ner_result) (sents : list string) :
  set_order_ok set_list ->
  let ents := build_entities set_list ner_results sents in
  List.NoDup (name ents) /\ List.NoDup (organization ents) /\
  List.NoDup (skills ents) /\ List.NoDup (education ents) /\
  (forall x, In x (organization ents) <-> In x (snd (fst (ner_loop ner_results)))) /\
  (forall x, In x (skills ents) <-> In x (snd (sent_loop sents))) /\
  (forall x, In x (education ents) <-> In x (fst (sent_loop sents))) /\
  (forall x, In x (name ents) -> In x (fst (fst (ner_loop ner_results)))).
Proof.
  intros Hok ents. unfold ents.
  rewrite name_of_build, organization_of_build, skills_of_build, education_of_build.
  split; [apply NoDup_first|]. split; [apply Hok|]. split; [apply Hok|].
  split; [apply Hok|]. split; [intros x; apply Hok|].
  split; [intros x; apply Hok|]. split; [intros x; apply Hok|].
  intros x H. apply Hok.
  destruct (set_list (fst (fst (ner_loop ner_results)))) as [|y l]; simpl in H; [tauto|].
  destruct H as [->|[]]. now left.
Qed.

Lemma X5_witness :
  List.NoDup (organization (build_entities reverse_order
                (two_people ++ two_people) [])) /\
  forall x, In x (organization (build_entities reverse_order
                     (two_people ++ two_people) []))
            <-> In x ["Acme"; "Inc"; "Acme"; "Inc"].
Proof.
  pose proof (X5_categories_deduplicated reverse_order (two_people ++ two_people) []
                reverse_order_ok) as (_ & H & _ & _ & Ho & _).
  split; [exact H|exact Ho].
Defined.

(** X6: the [name] category is empty exactly when the loop committed no
    name, and otherwise it holds exactly one of the committed names. *)
Theorem X6_name_present_iff_committed
    (set_list : list string -> list string)
    (ner_results : list ner_result) (sents : list string) :
  set_order_ok set_list ->
  let names := fst (fst (ner_loop ner_results)) in
  (name (build_entities set_list ner_results sents) = [] <-> names = []) /\
  (names <> [] ->
   exists n, name (build_entities set_list ner_results sents) = [n] /\ In n names).
Proof.
  intros Hok names. rewrite name_of_build. fold names.
  destruct (Hok names) as [_ Hin].
  destruct (set_list names) as [|y l] eqn:E; simpl.
  - assert (Hn : names = []).
    { destruct names as [|x t]; [reflexivity|]. destruct (proj2 (Hin x)). now left. }
    split; [tauto|]. intros H. congruence.
  - split.
    + split; [discriminate|]. intros ->.
      rewrite (set_list_nil _ Hok) in E. discriminate.
    + intros _. exists y. split; [reflexivity|]. apply Hin. now left.
Qed.

Lemma X6_witness :
  exists n, name (build_entities reverse_order two_people []) = [n]
            /\ In n ["Bob"; "Al"].
Proof.
  pose proof (X6_name_present_iff_committed reverse_order two_people []
                reverse_order_ok) as [_ H].
  apply H. discriminate.
Defined.

(** X7: a run of person-tagged triples is committed as one name by the
    first triple behind it that is not person-tagged: the words of the
    run, with what [current_name] already held, are joined by spaces and
    the sub-word markers taken out; [current_name] is empty again. *)
Theorem X7_name_committed_by_next_token
    (l t : list ner_result) (e : ner_result) :
  Forall (fun x => is_person x = true) t ->
  is_person e = false ->
  (snd (ner_loop l) ++ map word t)%list <> [] ->
  fst (fst (ner_loop (l ++ t ++ [e])))
  = (fst (fst (ner_loop l)) ++ [merged (snd (ner_loop l) ++ map word t)])%list
  /\ snd (ner_loop (l ++ t ++ [e])) = [].
Proof.
  intros Ht He Hne.
  assert (E : ner_loop (l ++ t ++ [e])
              = ner_step (ner_loop (l ++ t)) e).
  { unfold ner_loop. now rewrite app_assoc, fold_left_app. }
  rewrite E, (ner_loop_person_tail l t Ht), (ner_step_other _ _ _ _ He).
  destruct (snd (ner_loop l) ++ map word t)%list; [congruence|]. now split.
Qed.

Lemma X7_witness :
  fst (fst (ner_loop ([] ++ john_doe ++ [ {| entity := "B-ORG"; word := "Acme" |} ])))
  = ["John Doe"].
Proof.
  apply (X7_name_committed_by_next_token [] john_doe
           {| entity := "B-ORG"; word := "Acme" |}).
  - repeat constructor.
  - reflexivity.
  - discriminate.
Defined.

Lemma fold_orgs ner : forall names orgs cur,
  snd (fst (fold_left ner_step ner (names, orgs, cur)))
  = (orgs ++ map (fun e => replace " ##" "" (word e)) (List.filter is_org ner))%list.
Proof.
  induction ner as [|e ner IH]; intros names orgs cur.
  - simpl. now rewrite app_nil_r.
  - change (fold_left ner_step (e :: ner) (names, orgs, cur))
      with (fold_left ner_step ner (ner_step (names, orgs, cur) e)).
    destruct (ner_step (names, orgs, cur) e) as [[names1 orgs1] cur1] eqn:E.
    rewrite IH.
    assert (Ho : orgs1 = if is_org e
                         then (orgs ++ [replace " ##" "" (word e)])%list else orgs).
    { unfold ner_step in E. fold (is_org e) in E.
      destruct (is_person e); [|destruct cur]; destruct (is_org e);
        inversion E; reflexivity. }
    subst orgs1. simpl. destruct (is_org e); simpl; [|reflexivity].
    now rewrite <- app_assoc.
Qed.

(** X8: the organizations collected are the words of the triples whose
    tag begins with [B-ORG], each by itself, in text order; triples with
    any other tag add nothing. *)
Theorem X8_organizations_are_begin_tokens (ner_results : list ner_result) :
  snd (fst (ner_loop ner_results))
  = map (fun e => replace " ##" "" (word e))
        (List.filter (fun e => startswith "B-ORG" (entity e)) ner_results).
Proof. unfold ner_loop. now rewrite fold_orgs. Qed.

Lemma fold_sents (is_edu is_skl : string -> bool) sents : forall edu skl,
  fold_left
    (fun st sent =>
       (if is_edu sent then (fst st ++ [strip sent])%list else fst st,
        if is_skl sent then (snd st ++ [strip sent])%list else snd st))
    sents (edu, skl)
  = ((edu ++ map strip (List.filter is_edu sents))%list,
     (skl ++ map strip (List.filter is_skl sents))%list).
Proof.
  induction sents as [|s sents IH]; intros edu skl; simpl.
  - now rewrite !app_nil_r.
  - rewrite IH. destruct (is_edu s), (is_skl s); simpl;
      rewrite <- ?app_assoc; reflexivity.
Qed.

Lemma sent_step_eq st sent :
  sent_step st sent
  = (if mentions ["education"; "degree"; "university"; "college"] sent
     then (fst st ++ [strip sent])%list else fst st,
     if mentions ["skills"; "proficient"; "expertise"] sent
     then (snd st ++ [strip sent])%list else snd st).
Proof. now destruct st. Qed.

Lemma fold_ext {A B : Type} (f g : A -> B -> A) (l : list B) :
  (forall a b, f a b = g a b) -> forall a, fold_left f l a = fold_left g l a.
Proof.
  intros H. induction l as [|b l IH]; intros a; simpl; [reflexivity|].
  now rewrite H, IH.
Qed.

(** X9: the sentence pass keeps, stripped and in text order, for
    [education] the sentences that mention one of its four keywords in
    any letter case and for [skills] those that mention one of its
    three; a sentence can go to both, and one that mentions none goes to
    neither. *)
Theorem X9_sentences_by_keyword (sents : list string) :
  sent_loop sents
  = (map strip
       (List.filter (mentions ["education"; "degree"; "university"; "college"]) sents),
     map strip
       (List.filter (mentions ["skills"; "proficient"; "expertise"]) sents)).
Proof.
  unfold sent_loop. rewrite (fold_ext _ _ sents sent_step_eq).
  now rewrite fold_sents.
Qed.

Lemma fold_no_person ner : forall orgs,
  Forall (fun e => is_person e = false) ner ->
  exists orgs1, fold_left ner_step ner ([], orgs, []) = ([], orgs1, []).
Proof.
  induction ner as [|e ner IH]; intros orgs H.
  - now exists orgs.
  - inversion H; subst.
    change (fold_left ner_step (e :: ner) ([], orgs, []))
      with (fold_left ner_step ner (ner_step ([], orgs, []) e)).
    rewrite ner_step_other by assumption. now apply IH.
Qed.

Lemma startswith_self p : forall b, startswith p (p ++ b) = true.
Proof.
  induction p as [|c p IH]; intros b; simpl; [reflexivity|].
  now rewrite Ascii.eqb_refl, IH.
Qed.

Lemma contains_here p b : contains p (p ++ b) = true.
Proof.
  destruct (p ++ b) eqn:E; simpl; rewrite <- E, startswith_self; reflexivity.
Qed.

Lemma contains_behind p : forall a b, contains p b = true -> contains p (a ++ b) = true.
Proof.
  induction a as [|c a IH]; intros b H; [exact H|].
  simpl. rewrite (IH b H). apply orb_true_r.
Qed.

Lemma append_empty s : s ++ "" = s.
Proof.
  induction s as [|c s IH]; [reflexivity|].
  change (String c (s ++ "") = String c s). now rewrite IH.
Qed.

(** Every string of a list is in the joined list. *)
Lemma contains_join sep x : forall l, In x l -> contains x (join sep l) = true.
Proof.
  induction l as [|y l IH]; intros H; [destruct H|].
  destruct l as [|z l].
  - destruct H as [->|[]]. simpl.
    pose proof (contains_here x "") as H. now rewrite append_empty in H.
  - change (join sep (y :: z :: l)) with (y ++ sep ++ join sep (z :: l)).
    destruct H as [->|H].
    + apply contains_here.
    + apply contains_behind, contains_behind, IH, H.
Qed.

(** X10: the prompt of [generate_report] always has the title, the four
    labelled lines and the instruction; the line of a category without
    entries reads "Not Provided", and otherwise it lists the entries
    (for [name], the first one), separated by commas. *)
Theorem X10_prompt_lines (ents : entities) :
  let p := report_prompt ents in
  contains "    Candidate Report" p = true /\
  contains "    Summarize the above information in a professional tone for HR review, focusing on qualifications, experience, and skills." p = true /\
  (name ents = [] -> contains "    Name: Not Provided" p = true) /\
  (forall n rest, name ents = n :: rest -> contains ("    Name: " ++ n) p = true) /\
  (education ents = [] -> contains "    Qualifications: Not Provided" p = true) /\
  (education ents <> [] ->
     contains ("    Qualifications: " ++ join ", " (education ents)) p = true) /\
  (organization ents = [] -> contains "    Experience: Not Provided" p = true) /\
  (organization ents <> [] ->
     contains ("    Experience: " ++ join ", " (organization ents)) p = true) /\
  (skills ents = [] -> contains "    Skills: Not Provided" p = true) /\
  (skills ents <> [] -> contains ("    Skills: " ++ join ", " (skills ents)) p = true).
Proof.
  intros p. unfold p, report_prompt.
  assert (F : forall l, l <> [] -> field l = join ", " l).
  { intros [|x l] H; [congruence|reflexivity]. }
  split; [apply contains_join; simpl; tauto|].
  split; [apply contains_join; simpl; tauto|].
  repeat split.
  - intros ->. apply contains_join. simpl. tauto.
  - intros n rest ->. apply contains_join. simpl. tauto.
  - intros ->. apply contains_join. simpl. tauto.
  - intros H. rewrite <- (F _ H). apply contains_join. simpl. tauto.
  - intros ->. apply contains_join. simpl. tauto.
  - intros H. rewrite <- (F _ H). apply contains_join. simpl. tauto.
  - intros ->. apply contains_join. simpl. tauto.
  - intros H. rewrite <- (F _ H). apply contains_join. simpl. tauto.
Qed.

Lemma X10_witness :
  contains "    Name: Not Provided"
    (report_prompt (build_entities reverse_order acme_corp [])) = true /\
  contains "    Experience: Acme"
    (report_prompt (build_entities reverse_order acme_corp [])) = true.
Proof.
  pose proof (X10_prompt_lines (build_entities reverse_order acme_corp []))
    as (_ & _ & Hn & _ & _ & _ & _ & He & _).
  split; [apply Hn; reflexivity|apply He; discriminate].
Defined.

(** X11: when the classifier tags no token as a person, the [name]
    category is empty whatever else it found, and the prompt carries the
    line "Name: Not Provided". *)
Theorem X11_no_person_no_name
    (set_list : list string -> list string)
    (ner_results : list ner_result) (sents : list string) :
  set_order_ok set_list ->
  Forall (fun e => is_person e = false) ner_results ->
  name (build_entities set_list ner_results sents) = [] /\
  contains "    Name: Not Provided"
    (report_prompt (build_entities set_list ner_results sents)) = true.
Proof.
  intros Hok H.
  assert (Hn : name (build_entities set_list ner_results sents) = []).
  { rewrite name_of_build. unfold ner_loop.
    destruct (fold_no_person ner_results [] H) as [orgs1 ->]. simpl.
    now rewrite (set_list_nil _ Hok). }
  split; [exact Hn|].
  unfold report_prompt. rewrite Hn. apply contains_join. simpl. tauto.
Qed.

Lemma X11_witness :
  name (build_entities reverse_order acme_corp ["Skills: Java"]) = [] /\
  contains "    Name: Not Provided"
    (report_prompt (build_entities reverse_order acme_corp ["Skills: Java"])) = true.
Proof.
  apply (X11_no_person_no_name reverse_order acme_corp ["Skills: Java"]).
  - exact reverse_order_ok.
  - repeat constructor.
Defined.

End ExtractMore.

(** ** More on the server: what every request gets *)
Module ServerMore.
Import Py Eff App Examples Parts AppFacts.

Lemma lstrip_head s :
  match lstrip s with
  | EmptyString => True
  | String c _ => is_space c = false
  end.
Proof.
  induction s as [|c s IH]; simpl; [exact I|].
  destruct (is_space c) eqn:E; [exact IH|exact E].
Qed.

Lemma rstrip_idem s : rstrip (rstrip s) = rstrip s.
Proof.
  induction s as [|c s IH]; [reflexivity|]. simpl.
  destruct (rstrip s) as [|d r] eqn:E.
  - destruct (is_space c) eqn:Ec; [reflexivity|]. simpl. now rewrite Ec.
  - simpl. simpl in IH. now rewrite IH.
Qed.

Lemma rstrip_head c s :
  is_space c = false -> exists r, rstrip (String c s) = String c r.
Proof.
  intros H. simpl. destruct (rstrip s); [rewrite H|]; eexists; reflexivity.
Qed.

Lemma strip_idem s : strip (strip s) = strip s.
Proof.
  unfold strip. pose proof (lstrip_head s) as H.
  destruct (lstrip s) as [|c t]; [reflexivity|].
  destruct (rstrip_head c t H) as [r E].
  rewrite <- (rstrip_idem (String c t)) at 2. rewrite E.
  change (lstrip (String c r)) with (if is_space c then lstrip r else String c r).
  now rewrite H.
Qed.

Lemma Forall_no_call_nil : Forall (fun ev => is_model_call ev = false) [].
Proof. constructor. Qed.

Lemma steady_ret {A : Type} (a : A) : steady (ret a).
Proof. intros w. split; [reflexivity|]. exists []. simpl. now rewrite app_nil_r. Qed.

Lemma steady_raise {A : Type} (e : exn) : steady (@raise world A e).
Proof. intros w. split; [reflexivity|]. exists []. simpl. now rewrite app_nil_r. Qed.

Lemma steady_lift {A : Type} (r : result A) : steady (lift r).
Proof. intros w. split; [reflexivity|]. exists []. simpl. now rewrite app_nil_r. Qed.

Lemma steady_emit (ev : event) : steady (emit ev).
Proof. intros w. split; [reflexivity|]. now exists [ev]. Qed.

Lemma steady_loaded : steady get_model_loaded.
Proof. intros w. split; [reflexivity|]. exists []. simpl. now rewrite app_nil_r. Qed.

Lemma steady_calls : steady calls_so_far.
Proof. intros w. split; [reflexivity|]. exists []. simpl. now rewrite app_nil_r. Qed.

Lemma extends_trans w1 w2 w3 : extends w1 w2 -> extends w2 w3 -> extends w1 w3.
Proof.
  intros [F1 [r1 T1]] [F2 [r2 T2]]. split; [congruence|].
  exists (r1 ++ r2)%list. now rewrite T2, T1, app_assoc.
Qed.

Lemma steady_bind {A B : Type} (m : M world A) (k : A -> M world B) :
  steady m -> (forall a, steady (k a)) -> steady (bind m k).
Proof.
  intros Hm Hk w. unfold bind. specialize (Hm w).
  destruct (m w) as [[a|e] w1]; simpl in *; [|exact Hm].
  eapply extends_trans; [exact Hm|apply Hk].
Qed.

Lemma steady_try {A : Type} (m : M world A) (h : exn -> M world A) :
  steady m -> (forall e, steady (h e)) -> steady (try_except m h).
Proof.
  intros Hm Hh w. unfold try_except. specialize (Hm w).
  destruct (m w) as [[a|e] w1]; simpl in *; [exact Hm|].
  eapply extends_trans; [exact Hm|apply Hh].
Qed.

Create HintDb steady.

#[local] Hint Resolve steady_ret steady_raise steady_lift steady_emit
  steady_loaded steady_calls : steady.

Ltac steady :=
  repeat first
    [ apply steady_bind; [|intros ?]
    | apply steady_try; [|intros ?]
    | solve [auto with steady] ].

Section Requests.

Variable docx_Document : list Byte.byte -> result (list string).
Variable b64decode : string -> result (list Byte.byte).
Variable apply_chat_template : list message -> result string.
Variable tokenizer_call : string -> result (list nat).
Variable model_generate : list App.event -> list nat -> result (list nat).
Variable batch_decode : list nat -> result string.
Variable eos_token : string.

Let generation :=
  generation apply_chat_template tokenizer_call model_generate batch_decode eos_token.
Let report :=
  generate_llama_report apply_chat_template tokenizer_call model_generate
    batch_decode eos_token.
Let run :=
  process_resume docx_Document b64decode apply_chat_template tokenizer_call
    model_generate batch_decode eos_token.
Let attempt :=
  attempt docx_Document b64decode apply_chat_template tokenizer_call
    model_generate batch_decode eos_token.

Lemma read_cases buffer w :
  read_docx_from_bytes docx_Document buffer w
  = match docx_Document buffer with
    | Ok paragraphs => (Ok (join nl paragraphs), w)
    | Raise e =>
        (Raise (Exn ValueError "Could not read DOCX file." (Some e)),
         logged ("Error reading DOCX: " ++ str_of e) w)
    end.
Proof.
  unfold read_docx_from_bytes, try_except, bind, lift, ret.
  destruct (docx_Document buffer) as [paragraphs|e]; [|reflexivity].
  now rewrite ReaderFacts.fold_snoc.
Qed.

Lemma report_cases text w :
  report text w
  = if model_loaded w
    then match generation text w with
         | (Ok r, w') => (Ok r, w')
         | (Raise e, w') =>
             (Raise (wrapped e),
              logged ("Error during LLaMA generation: " ++ str_of e) w')
         end
    else (Raise not_ready, w).
Proof.
  destruct (model_loaded w) eqn:E.
  - now apply report_loaded.
  - now apply report_not_loaded.
Qed.

Lemma generation_stripped text w r w' :
  generation text w = (Ok r, w') -> exists g, r = strip g.
Proof.
  unfold generation, App.generation, call, bind, emit, lift, ret, calls_so_far. simpl.
  destruct (apply_chat_template (messages_for text)) as [input_text|e];
    [|discriminate].
  destruct (tokenizer_call input_text) as [input_ids|e]; [|discriminate].
  destruct (model_generate _ input_ids) as [generated_ids|e]; [|discriminate].
  destruct (batch_decode _) as [decoded|e]; [|discriminate].
  intros H. inversion H. eexists; reflexivity.
Qed.

(** What a request that passed the checks is handed to. *)
Lemma run_valid req m v file_name w :
  is_json req = true ->
  get_json req = Ok (JObj m) ->
  m !! "fileContent" = Some v -> truthy v = true ->
  m !! "fileName" = Some (JStr file_name) -> endswith ".docx" file_name = true ->
  run req w = try_except (attempt v) handlers w.
Proof.
  intros Hj Hd Hc Ht Hf He.
  unfold run, process_resume, bind, lift, data_get, json_endswith, ret.
  rewrite Hj, Hd, Hc, Hf. simpl. rewrite Ht, He. reflexivity.
Qed.

(** The [try] block always ends in a response. *)
Lemma attempt_cases v w :
  (exists msg w', try_except (attempt v) handlers w = (Ok (error_response msg 400), w')
     /\ model_loaded w' = model_loaded w
     /\ exists prints, trace w' = (trace w ++ prints)%list
          /\ Forall (fun ev => is_model_call ev = false) prints)
  \/ (exists msg w', try_except (attempt v) handlers w = (Ok (error_response msg 500), w'))
  \/ (exists text r w',
        try_except (attempt v) handlers w = (Ok (report_response r), w')
        /\ model_loaded w = true /\ generation text w = (Ok r, w')).
Proof.
  unfold attempt, Parts.attempt, try_except, bind.
  destruct v as [|b|z|f|content|l|m];
    try (right; left; unfold json_b64decode, raise, handlers; simpl;
         do 2 eexists; reflexivity).
  unfold json_b64decode, lift.
  destruct (b64decode content) as [buffer|e].
  - rewrite read_cases. destruct (docx_Document buffer) as [paragraphs|e].
    + fold report. rewrite report_cases. destruct (model_loaded w) eqn:Hl.
      * fold generation.
        destruct (generation (join nl paragraphs) w) as [[r|e] w'] eqn:G.
        -- right; right. exists (join nl paragraphs), r, w'. now repeat split.
        -- right; left. unfold handlers, wrapped. simpl. do 2 eexists; reflexivity.
      * right; left. unfold handlers, not_ready. simpl. do 2 eexists; reflexivity.
    + left. unfold handlers. simpl. do 2 eexists. split; [reflexivity|].
      split; [reflexivity|]. eexists. split; [reflexivity|].
      repeat constructor.
  - unfold handlers. destruct e as [[] msg ctx]; simpl.
    + left. do 2 eexists. split; [reflexivity|]. split; [reflexivity|].
      exists []. rewrite app_nil_r. split; [reflexivity|constructor].
    + right; left. do 2 eexists; reflexivity.
    + right; left. do 2 eexists; reflexivity.
    + right; left. do 2 eexists; reflexivity.
    + right; left. do 2 eexists; reflexivity.
Qed.

(** Every request is refused by a check, handed to the [try] block, or
    breaks before that: on a body that cannot be parsed, that is not an
    object, or whose file name is not a string. *)
Lemma run_cases req w :
  (exists e, run req w = (Raise e, w)
     /\ (get_json req = Raise e
         \/ (cls_of e = AttributeError
             /\ exists data, get_json req = Ok data
                  /\ ((forall m, data <> JObj m)
                      \/ exists m, data = JObj m
                           /\ forall s, default JNull (m !! "fileName") <> JStr s))))
  \/ (exists msg, run req w = (Ok (error_response msg 400), w))
  \/ (exists v, run req w = try_except (attempt v) handlers w).
Proof.
  unfold run, process_resume.
  destruct (is_json req); simpl; [|right; left; eexists; reflexivity].
  unfold bind, lift.
  destruct (get_json req) as [data|e0];
    [|left; exists e0; split; [reflexivity|now left]].
  unfold data_get.
  destruct data as [|b|z|f|s|l|m];
    try (left; eexists; split; [reflexivity|right; split; [reflexivity|];
         eexists; split; [reflexivity|left; intros m; discriminate]]).
  unfold ret.
  destruct (truthy (default JNull (m !! "fileContent"))); simpl;
    [|right; left; eexists; reflexivity].
  unfold json_endswith.
  destruct (default JNull (m !! "fileName")) as [|b|z|f|file_name|l|m'] eqn:Hn;
    try (left; eexists; split; [reflexivity|right; split; [reflexivity|];
         exists (JObj m); split; [reflexivity|right; exists m; split; [reflexivity|];
         intros s; rewrite Hn; discriminate]]).
  unfold ret. destruct (endswith ".docx" file_name); simpl;
    [|right; left; eexists; reflexivity].
  right; right. eexists. reflexivity.
Qed.

(** X12: whatever the request, a response of the view function has
    status 200, 400 or 500; with 200 its body is the report alone, the
    model was loaded and the report is what the whole generation
    returned for some text; with 400 or 500 its body is an error message
    alone, never part of a report. *)
Theorem X12_response_shape (req : request) (w w' : world) (resp : response) :
  run req w = (Ok resp, w') ->
  (status resp = 200 /\
   exists text r, body resp = {[ "report" := r ]} /\
     model_loaded w = true /\ generation text w = (Ok r, w'))
  \/ ((status resp = 400 \/ status resp = 500) /\
      exists msg, body resp = {[ "error" := msg ]}).
Proof.
  intros H. destruct (run_cases req w) as [(e & E & _)|[(msg & E)|(v & E)]];
    rewrite E in H.
  - discriminate.
  - inversion H; subst. right. split; [now left|]. now exists msg.
  - destruct (attempt_cases v w)
      as [(msg & w1 & A & _)|[(msg & w1 & A)|(text & r & w1 & A & Hl & G)]];
      rewrite A in H; inversion H; subst.
    + right. split; [now left|]. now exists msg.
    + right. split; [now right|]. now exists msg.
    + left. split; [reflexivity|]. exists text, r. now repeat split.
Qed.

(** X13: a request answered with status 400 never reached the tokenizer
    or the model: the readiness flag is as before and nothing but
    printed lines was added to the log. *)
Theorem X13_rejected_before_model (req : request) (w w' : world) (resp : response) :
  run req w = (Ok resp, w') ->
  status resp = 400 ->
  model_loaded w' = model_loaded w /\
  exists prints, trace w' = (trace w ++ prints)%list
    /\ Forall (fun ev => is_model_call ev = false) prints.
Proof.
  intros H Hs. destruct (run_cases req w) as [(e & E & _)|[(msg & E)|(v & E)]];
    rewrite E in H.
  - discriminate.
  - inversion H; subst. split; [reflexivity|]. exists []. rewrite app_nil_r.
    split; [reflexivity|constructor].
  - destruct (attempt_cases v w)
      as [(msg & w1 & A & Hf & Hp)|[(msg & w1 & A)|(text & r & w1 & A & _)]];
      rewrite A in H; inversion H; subst.
    + split; [exact Hf|exact Hp].
    + discriminate.
    + discriminate.
Qed.

(** X14: an exception leaves the view function only before anything
    was done, and only in three cases: [request.get_json()] raised it
    (the body could not be parsed), or it is the [AttributeError] of a
    body that is not an object or of a file name that is not a string.
    Every failure past these checks is turned into a response. *)
Theorem X14_what_leaves_the_view (req : request) (w w' : world) (e : exn) :
  run req w = (Raise e, w') ->
  w' = w /\
  (get_json req = Raise e
   \/ (cls_of e = AttributeError
       /\ exists data, get_json req = Ok data
            /\ ((forall m, data <> JObj m)
                \/ exists m, data = JObj m
                     /\ forall s, default JNull (m !! "fileName") <> JStr s))).
Proof.
  intros H.
  destruct (run_cases req w) as [(e0 & E & C)|[(msg & E)|(v & E)]];
    rewrite E in H.
  - inversion H; subst. now split.
  - discriminate.
  - destruct (attempt_cases v w)
      as [(msg & w1 & A & _)|[(msg & w1 & A)|(text & r & w1 & A & _)]];
      rewrite A in H; discriminate.
Qed.

(** X15: a valid request that arrives while the model is not loaded is
    answered with status 500 and "LLaMA model not loaded."; the document
    is decoded and read, but no call goes to the tokenizer or the model
    and nothing is logged. *)
Theorem X15_not_loaded_is_500 (req : request) (m : gmap string json)
    (content file_name : string) (buffer : list Byte.byte)
    (paragraphs : list string) (w : world) :
  is_json req = true ->
  get_json req = Ok (JObj m) ->
  m !! "fileContent" = Some (JStr content) -> content <> "" ->
  m !! "fileName" = Some (JStr file_name) -> endswith ".docx" file_name = true ->
  b64decode content = Ok buffer ->
  docx_Document buffer = Ok paragraphs ->
  model_loaded w = false ->
  run req w = (Ok (error_response "LLaMA model not loaded." 500), w).
Proof.
  intros Hj Hd Hc Hne Hf He Hb Hp Hl.
  assert (Ht : truthy (JStr content) = true).
  { simpl. apply negb_true_iff. now apply String.eqb_neq. }
  rewrite (run_valid req m _ file_name w Hj Hd Hc Ht Hf He).
  unfold attempt, Parts.attempt, try_except, bind, json_b64decode, lift.
  rewrite Hb, read_cases, Hp. fold report. rewrite report_cases, Hl. reflexivity.
Qed.

(** X16: when the decoded bytes cannot be read as a document, the caller
    gets status 400 and the fixed message "Could not read DOCX file.",
    whatever the parser's exception says; that exception is only
    printed. *)
Theorem X16_unreadable_document_is_400 (req : request) (m : gmap string json)
    (content file_name : string) (buffer : list Byte.byte) (e : exn) (w : world) :
  is_json req = true ->
  get_json req = Ok (JObj m) ->
  m !! "fileContent" = Some (JStr content) -> content <> "" ->
  m !! "fileName" = Some (JStr file_name) -> endswith ".docx" file_name = true ->
  b64decode content = Ok buffer ->
  docx_Document buffer = Raise e ->
  run req w
  = (Ok (error_response "Could not read DOCX file." 400),
     logged ("Error reading DOCX: " ++ str_of e) w).
Proof.
  intros Hj Hd Hc Hne Hf He Hb Hp.
  assert (Ht : truthy (JStr content) = true).
  { simpl. apply negb_true_iff. now apply String.eqb_neq. }
  rewrite (run_valid req m _ file_name w Hj Hd Hc Ht Hf He).
  unfold attempt, Parts.attempt, try_except, bind, json_b64decode, lift.
  rewrite Hb, read_cases, Hp. reflexivity.
Qed.

(** X17: for a valid request with a readable document and the model
    loaded, the answer follows the generation on the text of the
    document: its report with status 200, or with status 500 the message
    "Failed to generate report: " followed by the text of its exception,
    which is also printed. *)
Theorem X17_loaded_request_outcome (req : request) (m : gmap string json)
    (content file_name : string) (buffer : list Byte.byte)
    (paragraphs : list string) (w : world) :
  is_json req = true ->
  get_json req = Ok (JObj m) ->
  m !! "fileContent" = Some (JStr content) -> content <> "" ->
  m !! "fileName" = Some (JStr file_name) -> endswith ".docx" file_name = true ->
  b64decode content = Ok buffer ->
  docx_Document buffer = Ok paragraphs ->
  model_loaded w = true ->
  run req w
  = match generation (join nl paragraphs) w with
    | (Ok r, w') => (Ok (report_response r), w')
    | (Raise e, w') =>
        (Ok (error_response ("Failed to generate report: " ++ str_of e) 500),
         logged ("Error during LLaMA generation: " ++ str_of e) w')
    end.
Proof.
  intros Hj Hd Hc Hne Hf He Hb Hp Hl.
  assert (Ht : truthy (JStr content) = true).
  { simpl. apply negb_true_iff. now apply String.eqb_neq. }
  rewrite (run_valid req m _ file_name w Hj Hd Hc Ht Hf He).
  unfold attempt, Parts.attempt, try_except, bind, json_b64decode, lift.
  rewrite Hb, read_cases, Hp. fold report. rewrite report_cases, Hl.
  fold generation.
  destruct (generation (join nl paragraphs) w) as [[r|e] w']; reflexivity.
Qed.

(** X18: a report that the synthesizer returns has no white space at
    either end: stripping it again changes nothing. *)
Theorem X18_report_is_stripped (text : string) (w w' : world) (r : string) :
  report text w = (Ok r, w') -> strip r = r.
Proof.
  rewrite report_cases. destruct (model_loaded w); [|discriminate].
  destruct (generation text w) as [[r0|e] w0] eqn:G; [|discriminate].
  intros H. inversion H; subst.
  destruct (generation_stripped _ _ _ _ G) as [g ->]. apply strip_idem.
Qed.

(** X19: file content that is present but is not a string (a number, a
    list, an object, [true]) passes the checks and fails in the decoder
    with a [TypeError]; the generic handler prints it and answers with
    status 500 and "An unexpected error occurred on the server.". *)
Theorem X19_content_not_a_string_is_500 (req : request) (m : gmap string json)
    (v : json) (file_name : string) (w : world) :
  is_json req = true ->
  get_json req = Ok (JObj m) ->
  m !! "fileContent" = Some v -> truthy v = true -> (forall s, v <> JStr s) ->
  m !! "fileName" = Some (JStr file_name) -> endswith ".docx" file_name = true ->
  run req w
  = (Ok (error_response "An unexpected error occurred on the server." 500),
     logged ("Unhandled error: argument should be a bytes-like object or ASCII string, not '"
             ++ type_name v ++ "'") w).
Proof.
  intros Hj Hd Hc Ht Hv Hf He.
  rewrite (run_valid req m _ file_name w Hj Hd Hc Ht Hf He).
  unfold attempt, Parts.attempt, try_except, bind, json_b64decode.
  destruct v; try reflexivity. now destruct (Hv s).
Qed.

Lemma steady_report text : steady (report text).
Proof.
  unfold report, generate_llama_report, App.generation, call.
  apply steady_bind; [steady|]. intros l. destruct (negb l); steady.
Qed.

Lemma steady_run req : steady (run req).
Proof.
  unfold run, process_resume. destruct (negb (is_json req)); [steady|].
  apply steady_bind; [steady|]. intros data.
  apply steady_bind; [unfold data_get; destruct data; steady|].
  intros content.
  apply steady_bind; [unfold data_get; destruct data; steady|].
  intros file_name. destruct (negb (truthy content)); [steady|].
  apply steady_bind; [unfold json_endswith; destruct file_name; steady|].
  intros is_docx. destruct (negb is_docx); [steady|].
  apply steady_try.
  - apply steady_bind; [unfold json_b64decode; destruct content; steady|].
    intros buffer. apply steady_bind; [unfold read_docx_from_bytes; steady|].
    intros raw. apply steady_bind; [apply steady_report|]. intros r. steady.
  - intros e. destruct (cls_of e); steady.
Qed.

(** X20: handling a request never changes the readiness flag and never
    takes anything out of the log: the world after it is the world
    before it with more calls at the end, whether the request was
    answered or broke. *)
Theorem X20_request_keeps_flag_and_log (req : request) (w : world) :
  model_loaded (snd (run req w)) = model_loaded w /\
  exists rest, trace (snd (run req w)) = (trace w ++ rest)%list.
Proof. exact (steady_run req w). Qed.

End Requests.

Lemma number_content_lookup :
  (<[ "fileName" := JStr "cv.docx" ]>
     ({[ "fileContent" := JNum 7 ]} : gmap string json))
    !! "fileContent" = Some (JNum 7).
Proof. rewrite lookup_insert_ne by discriminate. apply lookup_singleton_eq. Qed.

Lemma number_content_name :
  (<[ "fileName" := JStr "cv.docx" ]>
     ({[ "fileContent" := JNum 7 ]} : gmap string json))
    !! "fileName" = Some (JStr "cv.docx").
Proof. apply lookup_insert_eq. Qed.

Lemma no_file_name_raises :
  process_resume (docx_of alice) b64_any chat tok gen_ok decode "</s>"
    no_file_name loaded
  = (Raise (no_attribute JNull "endswith"), loaded).
Proof.
  unfold process_resume, no_file_name, bind, lift, data_get, ret. simpl.
  rewrite lookup_singleton_eq, lookup_singleton_ne by discriminate. reflexivity.
Qed.

Lemma X12_witness :
  (status (error_response "Request must be JSON" 400) = 200 /\
   exists text r,
     body (error_response "Request must be JSON" 400) = {[ "report" := r ]} /\
     model_loaded loaded = true /\
     generation chat tok gen_ok decode "</s>" text loaded = (Ok r, loaded))
  \/ ((status (error_response "Request must be JSON" 400) = 400
       \/ status (error_response "Request must be JSON" 400) = 500) /\
      exists msg, body (error_response "Request must be JSON" 400) = {[ "error" := msg ]}).
Proof.
  apply (X12_response_shape (docx_of alice) b64_any chat tok gen_ok decode "</s>"
           not_json loaded loaded).
  reflexivity.
Defined.

Lemma X13_witness :
  model_loaded loaded = model_loaded loaded /\
  exists prints, trace loaded = (trace loaded ++ prints)%list
    /\ Forall (fun ev => is_model_call ev = false) prints.
Proof.
  apply (X13_rejected_before_model (docx_of alice) b64_any chat tok gen_ok decode
           "</s>" not_json loaded loaded (error_response "Request must be JSON" 400)).
  - reflexivity.
  - reflexivity.
Defined.

Lemma X14_witness :
  loaded = loaded /\
  (get_json unparsable = Raise bad_request
   \/ (cls_of bad_request = AttributeError
       /\ exists data, get_json unparsable = Ok data
            /\ ((forall m, data <> JObj m)
                \/ exists m, data = JObj m
                     /\ forall s, default JNull (m !! "fileName") <> JStr s))).
Proof.
  apply (X14_what_leaves_the_view (docx_of alice) b64_any chat tok gen_ok
           decode "</s>" unparsable loaded loaded bad_request).
  reflexivity.
Defined.

Lemma X15_witness :
  process_resume (docx_of alice) b64_any chat tok gen_ok decode "</s>"
    good_request not_loaded
  = (Ok (error_response "LLaMA model not loaded." 500), not_loaded).
Proof.
  exact (X15_not_loaded_is_500 (docx_of alice) b64_any chat tok gen_ok decode "</s>"
           good_request
           (<[ "fileName" := JStr "cv.docx" ]> {[ "fileContent" := JStr "bWFsZQ==" ]})
           "bWFsZQ==" "cv.docx" [] alice not_loaded
           eq_refl eq_refl PipelineFacts.good_request_content ltac:(discriminate)
           PipelineFacts.good_request_name eq_refl eq_refl eq_refl eq_refl).
Defined.

Lemma X16_witness :
  process_resume docx_broken b64_any chat tok gen_ok decode "</s>"
    good_request loaded
  = (Ok (error_response "Could not read DOCX file." 400),
     logged "Error reading DOCX: File is not a zip file" loaded).
Proof.
  exact (X16_unreadable_document_is_400 docx_broken b64_any chat tok gen_ok decode
           "</s>" good_request
           (<[ "fileName" := JStr "cv.docx" ]> {[ "fileContent" := JStr "bWFsZQ==" ]})
           "bWFsZQ==" "cv.docx" []
           (Exn OtherError "File is not a zip file" None) loaded
           eq_refl eq_refl PipelineFacts.good_request_content ltac:(discriminate)
           PipelineFacts.good_request_name eq_refl eq_refl eq_refl).
Defined.

Lemma X17_witness :
  process_resume (docx_of alice) b64_any chat tok gen_fail decode "</s>"
    good_request loaded
  = (Ok (error_response "Failed to generate report: out of memory" 500),
     logged "Error during LLaMA generation: out of memory"
       (snd (generation chat tok gen_fail decode "</s>" (join nl alice) loaded))).
Proof.
  rewrite (X17_loaded_request_outcome (docx_of alice) b64_any chat tok gen_fail decode
             "</s>" good_request _ "bWFsZQ==" "cv.docx" [] alice loaded eq_refl eq_refl
             PipelineFacts.good_request_content ltac:(discriminate)
             PipelineFacts.good_request_name eq_refl eq_refl eq_refl eq_refl).
  reflexivity.
Defined.

Lemma X18_witness : strip "OK" = "OK".
Proof.
  apply (X18_report_is_stripped chat tok gen_ok decode "</s>" "Skills: SQL" loaded
           (snd (generate_llama_report chat tok gen_ok decode "</s>" "Skills: SQL" loaded))).
  vm_compute. reflexivity.
Defined.

Lemma X19_witness :
  process_resume (docx_of alice) b64_any chat tok gen_ok decode "</s>"
    number_content loaded
  = (Ok (error_response "An unexpected error occurred on the server." 500),
     logged "Unhandled error: argument should be a bytes-like object or ASCII string, not 'int'"
       loaded).
Proof.
  exact (X19_content_not_a_string_is_500 (docx_of alice) b64_any chat tok gen_ok decode
           "</s>" number_content
           (<[ "fileName" := JStr "cv.docx" ]> {[ "fileContent" := JNum 7 ]})
           (JNum 7) "cv.docx" loaded
           eq_refl eq_refl number_content_lookup eq_refl ltac:(discriminate)
           number_content_name eq_refl).
Defined.

End ServerMore.

(** ** More on the full mode of [model2.py] *)
Module FullModeMore.
Import Py Eff Filter Model2 Examples Parts.

Section Run.

Variable docx_path : string -> result (list string).
Variable ner_pipeline : string -> result (list ner_result).
Variable nlp_sents : string -> result (list string).
Variable generator : list event -> string -> result string.
Variable set_list : list string -> list string.
Variable write_file : string -> string -> result unit.

Let run :=
  process_resume docx_path ner_pipeline nlp_sents generator set_list write_file.

(** What a run added to the log: the calls to the models, all on the
    filtered text, and at the very end the writing of the report that it
    returns, if it returns one. *)
Lemma full_mode_calls file_path output_path log :
  exists calls,
    snd (run file_path output_path log)
    = (log ++ calls ++ match fst (run file_path output_path log) with
                       | Ok report => [WriteFile output_path report]
                       | Raise _ => []
                       end)%list
    /\ forallb (fun ev => negb (is_write ev)) calls = true
    /\ (forall text, In (CallNer text) calls \/ In (CallNlp text) calls ->
          existsb (fun pattern => Re.search pattern text) sensitive_keywords = false)
    /\ (forall e, docx_path file_path = Raise e ->
          run file_path output_path log = (Raise e, log)).
Proof.
  unfold run. rewrite PipelineFacts.full_mode_steps.
  assert (C : forall paragraphs text (calls : list event),
            (forall ev, In ev calls ->
               ev = CallNer (remove_sensitive_info (join nl paragraphs))
               \/ ev = CallNlp (remove_sensitive_info (join nl paragraphs))
               \/ exists p, ev = CallGenerator p) ->
            In (CallNer text) calls \/ In (CallNlp text) calls ->
            existsb (fun pattern => Re.search pattern text) sensitive_keywords = false).
  { intros paragraphs text calls Hc [Hin|Hin];
      destruct (Hc _ Hin) as [E|[E|[p E]]]; try discriminate;
      inversion E; subst; apply FilterMore.filtered_is_clean. }
  destruct (docx_path file_path) as [paragraphs|e0].
  - cbv zeta.
    destruct (ner_pipeline _) as [ner_results|e].
    + destruct (nlp_sents _) as [sents|e].
      * destruct (generator _ _) as [report|e].
        -- destruct (write_file output_path report) as [u|e]; simpl.
           ++ exists [CallNer (remove_sensitive_info (join nl paragraphs));
                      CallNlp (remove_sensitive_info (join nl paragraphs));
                      CallGenerator
                        (report_prompt (build_entities set_list ner_results sents))].
              split; [reflexivity|]. split; [reflexivity|].
              split; [|discriminate].
              intros text. apply (C paragraphs). intros ev [<-|[<-|[<-|[]]]]; eauto.
           ++ exists [CallNer (remove_sensitive_info (join nl paragraphs));
                      CallNlp (remove_sensitive_info (join nl paragraphs));
                      CallGenerator
                        (report_prompt (build_entities set_list ner_results sents))].
              split; [reflexivity|]. split; [reflexivity|].
              split; [|discriminate].
              intros text. apply (C paragraphs). intros ev [<-|[<-|[<-|[]]]]; eauto.
        -- simpl.
           exists [CallNer (remove_sensitive_info (join nl paragraphs));
                   CallNlp (remove_sensitive_info (join nl paragraphs));
                   CallGenerator
                     (report_prompt (build_entities set_list ner_results sents))].
           split; [reflexivity|]. split; [reflexivity|].
           split; [|discriminate].
           intros text. apply (C paragraphs). intros ev [<-|[<-|[<-|[]]]]; eauto.
      * simpl.
        exists [CallNer (remove_sensitive_info (join nl paragraphs));
                CallNlp (remove_sensitive_info (join nl paragraphs))].
        split; [reflexivity|]. split; [reflexivity|].
        split; [|discriminate].
        intros text. apply (C paragraphs). intros ev [<-|[<-|[]]]; eauto.
    + simpl. exists [CallNer (remove_sensitive_info (join nl paragraphs))].
      split; [reflexivity|]. split; [reflexivity|].
      split; [|discriminate].
      intros text. apply (C paragraphs). intros ev [<-|[]]; eauto.
  - simpl. exists []. split; [now rewrite app_nil_r|]. split; [reflexivity|].
    split; [intros text [[]|[]]|]. intros e E. now inversion E.
Qed.


(** X22: whatever the document, every text that the full mode hands to
    the entity classifier or to the sentence splitter is free of the
    taxonomy: no pattern of the filter matches in it. *)
Theorem X22_classifiers_see_filtered_text
    (file_path output_path : string) (log : list event) :
  exists calls,
    snd (run file_path output_path log) = (log ++ calls)%list /\
    forall text, In (CallNer text) calls \/ In (CallNlp text) calls ->
      existsb (fun pattern => Re.search pattern text) sensitive_keywords = false.
Proof.
  destruct (full_mode_calls file_path output_path log) as (calls & Hs & _ & Hc & _).
  eexists. split; [exact Hs|].
  intros text [Hin|Hin]; apply in_app_or in Hin as [Hin|Hin];
    try (apply Hc; tauto);
    destruct (fst (run file_path output_path log)); simpl in Hin;
    destruct Hin as [Hin|[]] || destruct Hin; discriminate.
Qed.

End Run.


End FullModeMore.

(** ** Loading the model at start-up *)
Module StartupFacts.
Import Py Eff App Startup Examples Parts.

Section Load.

Variable environ : gmap string string.
Variable tokenizer_from_pretrained : string -> string -> result unit.
Variable model_from_pretrained : string -> string -> result unit.

Let load := load_llama_model environ tokenizer_from_pretrained model_from_pretrained.
Let loading := loading environ tokenizer_from_pretrained model_from_pretrained.

(** The body of the [try] sets the flag exactly when it does not raise. *)
Lemma loading_flag w :
  model_loaded w = false ->
  match loading w with
  | (Ok _, w') => model_loaded w' = true
  | (Raise _, w') => model_loaded w' = false
  end.
Proof.
  intros Hl. unfold loading, Startup.loading, bind, lift, raise, ret,
    set_model_loaded, emit.
  destruct (environ !! "HUGGING_FACE_HUB_TOKEN") as [t|]; [|exact Hl].
  destruct (String.eqb t ""); [exact Hl|].
  destruct (tokenizer_from_pretrained LLAMA_MODEL_ID t); [|exact Hl].
  destruct (model_from_pretrained LLAMA_MODEL_ID t); [reflexivity|exact Hl].
Qed.

(** X23: [load_llama_model] returns only with the model marked as
    loaded; calling it again then only prints "Model already loaded.",
    and the synthesizer does not raise its not-ready error in the world
    it left.  Otherwise it ends the process with status 1 and the flag
    still false. *)
Theorem X23_load_returns_only_when_loaded (w : world) :
  match load w with
  | Returned w' =>
      model_loaded w' = true /\
      load w' = Returned (logged "Model already loaded." w') /\
      forall apply_chat_template tokenizer_call model_generate batch_decode
             eos_token text,
        fst (generate_llama_report apply_chat_template tokenizer_call model_generate
               batch_decode eos_token text w') <> Raise not_ready
  | Exited st w' => st = 1 /\ model_loaded w' = false /\ model_loaded w = false
  end.
Proof.
  assert (G : forall w', model_loaded w' = true ->
            load w' = Returned (logged "Model already loaded." w') /\
            forall apply_chat_template tokenizer_call model_generate batch_decode
                   eos_token text,
              fst (generate_llama_report apply_chat_template tokenizer_call
                     model_generate batch_decode eos_token text w') <> Raise not_ready).
  { intros w' Hl. split.
    - unfold load, load_llama_model. now rewrite Hl.
    - intros a t g d eos text.
      rewrite (AppFacts.report_loaded a t g d eos text w' Hl).
      destruct (generation a t g d eos text w') as [[r|e] w0]; simpl; discriminate. }
  unfold load, load_llama_model. fold load. destruct (model_loaded w) eqn:Hl.
  - split; [exact Hl|]. apply G. exact Hl.
  - unfold bind at 1. unfold emit at 1. fold loading.
    pose proof (loading_flag (logged loading_line w) Hl) as F.
    unfold loading_line, logged in F.
    change ("Loading LLaMA 3.1 model for CPU: " ++ LLAMA_MODEL_ID ++ "...")
      with "Loading LLaMA 3.1 model for CPU: meta-llama/Meta-Llama-3.1-8B-Instruct...".
    destruct (loading _) as [[u|e] w'].
    + split; [exact F|]. apply G. exact F.
    + repeat split. exact F.
Qed.

(** X24: without a Hugging Face token in the environment (the variable
    unset, or set to the empty string) an unloaded server does not
    start: the error is printed and the process ends with status 1,
    whatever the two loaders would have answered. *)
Theorem X24_missing_token_exits (w : world) :
  model_loaded w = false ->
  (environ !! "HUGGING_FACE_HUB_TOKEN" = None
   \/ environ !! "HUGGING_FACE_HUB_TOKEN" = Some "") ->
  load w
  = Exited 1
      (logged "Error loading LLaMA model: HUGGING_FACE_HUB_TOKEN environment variable not set. Please set it."
         (logged loading_line w)).
Proof.
  intros Hl He. destruct w as [flag calls]. simpl in Hl. subst flag.
  unfold load, load_llama_model, Startup.loading, bind, emit, raise. simpl.
  destruct He as [-> | ->]; reflexivity.
Qed.

(** X25: with a token, an unloaded server starts exactly when both
    loaders succeed: if the tokenizer or the model cannot be loaded the
    process ends with status 1. *)
Theorem X25_load_needs_both_loaders (w : world) (token : string) :
  model_loaded w = false ->
  environ !! "HUGGING_FACE_HUB_TOKEN" = Some token -> token <> "" ->
  ((exists w', load w = Returned w')
   <-> (exists u1 u2,
          tokenizer_from_pretrained LLAMA_MODEL_ID token = Ok u1 /\
          model_from_pretrained LLAMA_MODEL_ID token = Ok u2))
  /\ ((exists w', load w = Exited 1 w')
      <-> ((exists e, tokenizer_from_pretrained LLAMA_MODEL_ID token = Raise e)
           \/ (exists e, model_from_pretrained LLAMA_MODEL_ID token = Raise e))).
Proof.
  intros Hl He Hne.
  assert (Ht : String.eqb token "" = false) by now apply String.eqb_neq.
  unfold load, load_llama_model, Startup.loading, bind, emit, raise, lift, ret,
    set_model_loaded.
  rewrite Hl, He, Ht. simpl.
  destruct (tokenizer_from_pretrained LLAMA_MODEL_ID token) as [u1|e1]; simpl.
  - destruct (model_from_pretrained LLAMA_MODEL_ID token) as [u2|e2]; simpl.
    + split; split.
      * intros _. now exists u1, u2.
      * intros _. eexists; reflexivity.
      * intros [w' H]. discriminate.
      * intros [[e H]|[e H]]; discriminate.
    + split; split.
      * intros [w' H]. discriminate.
      * intros (u1' & u2' & _ & H). discriminate.
      * intros _. right. now exists e2.
      * intros _. eexists; reflexivity.
  - split; split.
    + intros [w' H]. discriminate.
    + intros (u1' & u2' & H & _). discriminate.
    + intros _. left. now exists e1.
    + intros _. eexists; reflexivity.
Qed.

End Load.

Lemma X24_witness :
  load_llama_model ∅ loader_ok loader_ok not_loaded
  = Exited 1
      (logged "Error loading LLaMA model: HUGGING_FACE_HUB_TOKEN environment variable not set. Please set it."
         (logged loading_line not_loaded)).
Proof.
  apply (X24_missing_token_exits ∅ loader_ok loader_ok not_loaded).
  - reflexivity.
  - left. apply lookup_empty.
Defined.

Lemma X25_witness :
  exists w',
    load_llama_model {[ "HUGGING_FACE_HUB_TOKEN" := "hf_token" ]} loader_ok loader_fails
      not_loaded = Exited 1 w'.
Proof.
  apply (X25_load_needs_both_loaders {[ "HUGGING_FACE_HUB_TOKEN" := "hf_token" ]}
           loader_ok loader_fails not_loaded "hf_token").
  - reflexivity.
  - apply lookup_singleton_eq.
  - discriminate.
  - right. eexists. reflexivity.
Defined.

End StartupFacts.
